(** * The directory gateway of package [cloud] (pkg/cloud/graph.go)

    A shallow embedding of the nine operations that [AzureClient] offers on
    top of the Microsoft Graph client, of the two filter builders, and of
    the calls they make to their collaborators: the logger, the Graph
    client (the transport) and the error classifier [GetGraphError].

    Go values are modelled as follows.
    - a pointer or an interface value that may be nil is an [option];
    - a Go result tuple [(T, error)] is a pair [option T * option error];
    - a run-time panic (nil dereference, index out of range) is the
      outcome [Panicked];
    - the directory service is a state of an arbitrary type, threaded
      through every transport call, next to the log of the calls made. *)

From Stdlib Require Import String Ascii List Bool ZArith Lia.
From stdpp Require Import base option list strings gmap.

Local Open Scope string_scope.
Local Open Scope list_scope.

Set Warnings "-register-all".

(** ** Data model *)

(** A value of Go type [interface{}] as it comes out of the JSON decoder. *)
Inductive Any : Type :=
| AnyNil
| AnyBool (b : bool)
| AnyNumber (z : Z)
| AnyString (s : string)
| AnyArray (items : list Any)
| AnyObject (fields : list (string * Any)).

(** [map[string]interface{}]; the nil map reads like the empty one. *)
Abbreviation AdditionalData := (gmap string Any).

(** Modelled from the spec: the structured service-level error that the
    classifier extracts, [ServiceError(code, message)]; the Go type
    [GraphError] is declared in another file of package [cloud]. *)
Record GraphError : Type := mkGraphError {
  Code : string;
  Message : string
}.

(** Go's [error] interface, by the way the value was built. *)
Inductive error : Type :=
| errorsNew (msg : string)
    (* errors.New(msg) *)
| errorsErrorf (msg : string)
    (* errors.Errorf(format, args...), [msg] being the formatted text *)
| graphErrorValue (ge : GraphError)
    (* a GraphError value returned as an error: [*graphErr] *)
| foreignError (desc : string).
    (* an error value built by a collaborator: transport, auth, context,
       decoder *)

(** context.Context: all that matters here is what [ctx.Err()] reports. *)
Record Context : Type := mkContext {
  Err : option error
}.

Record ServicePrincipal : Type := mkServicePrincipal {
  sp_id : option string;
  sp_appId : option string;
  sp_displayName : option string;
  sp_tags : list string;
  sp_additionalData : AdditionalData
}.

Record Application : Type := mkApplication {
  app_id : option string;
  app_appId : option string;
  app_displayName : option string;
  app_additionalData : AdditionalData
}.

Record FederatedIdentityCredential : Type := mkFederatedIdentityCredential {
  fic_id : option string;
  fic_name : option string;
  fic_issuer : option string;
  fic_subject : option string;
  fic_audiences : list string;
  fic_additionalData : AdditionalData
}.

(** The collection responses of the three list endpoints.  The elements of
    [GetValue()] are interface values: each of them may be nil. *)
Record CollectionResponse (T : Type) : Type := mkCollectionResponse {
  GetValue : list (option T);
  coll_additionalData : AdditionalData
}.
Arguments mkCollectionResponse {T} _ _.
Arguments GetValue {T} _.
Arguments coll_additionalData {T} _.

(** The SDK interface [AdditionalDataHolder]. *)
Class AdditionalDataHolder (T : Type) : Type :=
  GetAdditionalData : T -> AdditionalData.

#[export] Instance ServicePrincipal_holder : AdditionalDataHolder ServicePrincipal :=
  sp_additionalData.
#[export] Instance Application_holder : AdditionalDataHolder Application :=
  app_additionalData.
#[export] Instance FederatedIdentityCredential_holder :
  AdditionalDataHolder FederatedIdentityCredential := fic_additionalData.
#[export] Instance CollectionResponse_holder (T : Type) :
  AdditionalDataHolder (CollectionResponse T) := coll_additionalData.

Definition GetIssuer (fic : FederatedIdentityCredential) : option string :=
  fic_issuer fic.
Definition GetSubject (fic : FederatedIdentityCredential) : option string :=
  fic_subject fic.

(** models.NewServicePrincipal(), SetAppId, SetTags; models.NewApplication(),
    SetDisplayName. *)
Definition NewServicePrincipal : ServicePrincipal :=
  mkServicePrincipal None None None [] ∅.
Definition SetAppId (v : option string) (sp : ServicePrincipal) : ServicePrincipal :=
  mkServicePrincipal (sp_id sp) v (sp_displayName sp) (sp_tags sp)
    (sp_additionalData sp).
Definition SetTags (v : list string) (sp : ServicePrincipal) : ServicePrincipal :=
  mkServicePrincipal (sp_id sp) (sp_appId sp) (sp_displayName sp) v
    (sp_additionalData sp).
Definition NewApplication : Application :=
  mkApplication None None None ∅.
Definition SetDisplayName (v : option string) (app : Application) : Application :=
  mkApplication (app_id app) (app_appId app) v (app_additionalData app).

(** ErrFederatedCredentialNotFound is returned when the federated credential
    is not found. *)
Definition ErrFederatedCredentialNotFound : error :=
  errorsNew "federated credential not found".

(** ** Filter builder *)

(** getDisplayNameFilter returns a filter string for the given display name:
    [fmt.Sprintf("displayName eq '%s'", displayName)]. *)
Definition getDisplayNameFilter (displayName : string) : string :=
  "displayName eq '" +:+ displayName +:+ "'".

(** getSubjectFilter returns a filter string for the given subject:
    [fmt.Sprintf("subject eq '%s'", subject)]. *)
Definition getSubjectFilter (subject : string) : string :=
  "subject eq '" +:+ subject +:+ "'".

(** ** Calls to collaborators, the world and the execution monad *)

(** One request to the directory service (one row of the endpoint table). *)
Inductive Request : Type :=
| PostServicePrincipal (body : ServicePrincipal)
| PostApplication (body : Application)
| GetServicePrincipals (filter : string)
| GetApplications (filter : string)
| DeleteServicePrincipalById (objectID : string)
| DeleteApplicationById (objectID : string)
| PostFederatedIdentityCredential (objectID : string)
    (body : option FederatedIdentityCredential)
| GetFederatedIdentityCredentials (objectID : string) (filter : string)
| DeleteFederatedIdentityCredentialById (objectID : string)
    (federatedCredentialID : string).

(** What an operation does besides returning: a line of debug log, a request
    handed to the transport, an envelope handed to the classifier. *)
Inductive Event : Type :=
| LogDebug (msg : string) (keysAndValues : list (string * string))
| Transport (ctx : Context) (req : Request)
| Classify (additionalData : AdditionalData).

Record World (Directory : Type) : Type := mkWorld {
  directory : Directory;
  calls : list Event
}.
Arguments mkWorld {Directory} _ _.
Arguments directory {Directory} _.
Arguments calls {Directory} _.

Inductive Outcome (A : Type) : Type :=
| Returned (a : A)
| Panicked (why : string).
Arguments Returned {A} _.
Arguments Panicked {A} _.

Definition Exec (Directory A : Type) : Type :=
  World Directory -> Outcome A * World Directory.

Definition ret {D A : Type} (a : A) : Exec D A :=
  fun w => (Returned a, w).

Definition bind {D A B : Type} (m : Exec D A) (k : A -> Exec D B) : Exec D B :=
  fun w =>
    match m w with
    | (Returned a, w') => k a w'
    | (Panicked why, w') => (Panicked why, w')
    end.

Definition panic {D A : Type} (why : string) : Exec D A :=
  fun w => (Panicked why, w).

Definition record {D : Type} (e : Event) : Exec D unit :=
  fun w => (Returned tt, mkWorld (directory w) (calls w ++ [e])).

Declare Scope exec_scope.
Delimit Scope exec_scope with exec.
Notation "x <- m ;; k" := (bind m (fun x => k))
  (at level 20, m at level 99, k at level 200, only parsing) : exec_scope.
Notation "' pat <- m ;; k" := (bind m (fun x => match x with pat => k end))
  (at level 20, pat pattern, m at level 99, k at level 200, only parsing)
  : exec_scope.
Notation "m ;; k" := (bind m (fun _ => k))
  (at level 100, k at level 200, only parsing, right associativity)
  : exec_scope.
Local Open Scope exec_scope.

Definition nilDereference : string :=
  "invalid memory address or nil pointer dereference".
Definition indexOutOfRange : string := "index out of range".

(** Dereferencing a pointer, or calling a method on an interface value. *)
Definition deref {D A : Type} (p : option A) : Exec D A :=
  match p with
  | Some a => ret a
  | None => panic nilDereference
  end.

(** Indexing a slice. *)
Definition index {D A : Type} (s : list A) (i : nat) : Exec D A :=
  match s !! i with
  | Some a => ret a
  | None => panic indexOutOfRange
  end.

(** mlog.Debug *)
Definition mlog_Debug {D : Type} (msg : string) (kv : list (string * string))
  : Exec D unit :=
  record (LogDebug msg kv).

(** The Graph client, the transport of the gateway: each endpoint answers
    from, and may change, the state of the directory. *)
Record GraphServiceClient (D : Type) : Type := mkGraphServiceClient {
  ServicePrincipals_Post : forall (ctx : Context) (body : ServicePrincipal),
    D -> (option ServicePrincipal * option error) * D;
  Applications_Post : forall (ctx : Context) (body : Application),
    D -> (option Application * option error) * D;
  ServicePrincipals_Get : forall (ctx : Context) (filter : string),
    D -> (option (CollectionResponse ServicePrincipal) * option error) * D;
  Applications_Get : forall (ctx : Context) (filter : string),
    D -> (option (CollectionResponse Application) * option error) * D;
  ServicePrincipalsById_Delete : forall (objectID : string) (ctx : Context),
    D -> option error * D;
  ApplicationsById_Delete : forall (objectID : string) (ctx : Context),
    D -> option error * D;
  FederatedIdentityCredentials_Post :
    forall (objectID : string) (ctx : Context)
      (body : option FederatedIdentityCredential),
    D -> (option FederatedIdentityCredential * option error) * D;
  FederatedIdentityCredentials_Get :
    forall (objectID : string) (ctx : Context) (filter : string),
    D -> (option (CollectionResponse FederatedIdentityCredential)
          * option error) * D;
  FederatedIdentityCredentialsById_Delete :
    forall (objectID federatedCredentialID : string) (ctx : Context),
    D -> option error * D
}.
Arguments ServicePrincipals_Post {D} _.
Arguments Applications_Post {D} _.
Arguments ServicePrincipals_Get {D} _.
Arguments Applications_Get {D} _.
Arguments ServicePrincipalsById_Delete {D} _.
Arguments ApplicationsById_Delete {D} _.
Arguments FederatedIdentityCredentials_Post {D} _.
Arguments FederatedIdentityCredentials_Get {D} _.
Arguments FederatedIdentityCredentialsById_Delete {D} _.

Record AzureClient (D : Type) : Type := mkAzureClient {
  graphServiceClient : GraphServiceClient D
}.
Arguments mkAzureClient {D} _.
Arguments graphServiceClient {D} _.

(** Handing one request to the transport: the call is logged and the
    endpoint runs on the directory. *)
Definition send {D R : Type} (ctx : Context) (req : Request)
  (endpoint : D -> R * D) : Exec D R :=
  fun w =>
    let '(r, d') := endpoint (directory w) in
    (Returned r, mkWorld d' (calls w ++ [Transport ctx req])).

(** ** Directory gateway *)

Section Gateway.

Context {D : Type}.

(** The error classifier of package [cloud].  It is defined in another file
    of the package, so the operations are parametrised by it: it takes the
    additional data of a response and returns a pointer to a graph error,
    and an error of its own. *)
Variable GetGraphError : AdditionalData -> option GraphError * option error.

Definition classify (additionalData : AdditionalData)
  : Exec D (option GraphError * option error) :=
  record (Classify additionalData) ;;
  ret (GetGraphError additionalData).

(** CreateServicePrincipal creates a service principal for the given
    application.  No secret or certificate is generated. *)
Definition CreateServicePrincipal (c : AzureClient D) (ctx : Context)
  (appID : string) (tags : list string)
  : Exec D (option ServicePrincipal * option error) :=
  let body := NewServicePrincipal in
  let body := SetAppId (Some appID) body in
  let body := SetTags tags body in
  mlog_Debug "Creating service principal for application" [("id", appID)] ;;
  '(sp, err) <- send ctx (PostServicePrincipal body)
                  (ServicePrincipals_Post (graphServiceClient c) ctx body) ;;
  match err with
  | Some e => ret (None, Some e)
  | None =>
      additionalData <- (r <- deref sp ;; ret (GetAdditionalData r)) ;;
      '(graphErr, err) <- classify additionalData ;;
      match err with
      | Some e => ret (None, Some e)
      | None =>
          match graphErr with
          | Some ge => ret (None, Some (graphErrorValue ge))
          | None => ret (sp, None)
          end
      end
  end.

(** CreateApplication creates an application. *)
Definition CreateApplication (c : AzureClient D) (ctx : Context)
  (displayName : string) : Exec D (option Application * option error) :=
  let body := NewApplication in
  let body := SetDisplayName (Some displayName) body in
  mlog_Debug "Creating application" [("displayName", displayName)] ;;
  '(app, err) <- send ctx (PostApplication body)
                   (Applications_Post (graphServiceClient c) ctx body) ;;
  match err with
  | Some e => ret (None, Some e)
  | None =>
      additionalData <- (r <- deref app ;; ret (GetAdditionalData r)) ;;
      '(graphErr, err) <- classify additionalData ;;
      match err with
      | Some e => ret (None, Some e)
      | None =>
          match graphErr with
          | Some ge => ret (None, Some (graphErrorValue ge))
          | None => ret (app, None)
          end
      end
  end.

(** GetServicePrincipal gets a service principal by its display name. *)
Definition GetServicePrincipal (c : AzureClient D) (ctx : Context)
  (displayName : string) : Exec D (option ServicePrincipal * option error) :=
  mlog_Debug "Getting service principal" [("displayName", displayName)] ;;
  let filter := getDisplayNameFilter displayName in
  '(resp, err) <- send ctx (GetServicePrincipals filter)
                    (ServicePrincipals_Get (graphServiceClient c) ctx filter) ;;
  match err with
  | Some e => ret (None, Some e)
  | None =>
      additionalData <- (r <- deref resp ;; ret (GetAdditionalData r)) ;;
      '(graphErr, err) <- classify additionalData ;;
      match err with
      | Some e => ret (None, Some e)
      | None =>
          match graphErr with
          | Some ge => ret (None, Some (graphErrorValue ge))
          | None =>
              value <- (r <- deref resp ;; ret (GetValue r)) ;;
              if Nat.eqb (length value) 0 then
                ret (None, Some (errorsErrorf
                  ("service principal " +:+ displayName +:+ " not found")))
              else
                first <- index value 0 ;;
                ret (first, None)
          end
      end
  end.

(** GetApplication gets an application by its display name. *)
Definition GetApplication (c : AzureClient D) (ctx : Context)
  (displayName : string) : Exec D (option Application * option error) :=
  mlog_Debug "Getting application" [("displayName", displayName)] ;;
  let filter := getDisplayNameFilter displayName in
  '(resp, err) <- send ctx (GetApplications filter)
                    (Applications_Get (graphServiceClient c) ctx filter) ;;
  match err with
  | Some e => ret (None, Some e)
  | None =>
      additionalData <- (r <- deref resp ;; ret (GetAdditionalData r)) ;;
      '(graphErr, err) <- classify additionalData ;;
      match err with
      | Some e => ret (None, Some e)
      | None =>
          match graphErr with
          | Some ge => ret (None, Some (graphErrorValue ge))
          | None =>
              value <- (r <- deref resp ;; ret (GetValue r)) ;;
              if Nat.eqb (length value) 0 then
                ret (None, Some (errorsErrorf
                  ("application with display name '" +:+ displayName
                   +:+ "' not found")))
              else
                first <- index value 0 ;;
                ret (first, None)
          end
      end
  end.

(** DeleteServicePrincipal deletes a service principal. *)
Definition DeleteServicePrincipal (c : AzureClient D) (ctx : Context)
  (objectID : string) : Exec D (option error) :=
  mlog_Debug "Deleting service principal" [("objectID", objectID)] ;;
  send ctx (DeleteServicePrincipalById objectID)
    (ServicePrincipalsById_Delete (graphServiceClient c) objectID ctx).

(** DeleteApplication deletes an application. *)
Definition DeleteApplication (c : AzureClient D) (ctx : Context)
  (objectID : string) : Exec D (option error) :=
  mlog_Debug "Deleting application" [("objectID", objectID)] ;;
  send ctx (DeleteApplicationById objectID)
    (ApplicationsById_Delete (graphServiceClient c) objectID ctx).

(** AddFederatedCredential adds a federated credential to the cloud
    provider. *)
Definition AddFederatedCredential (c : AzureClient D) (ctx : Context)
  (objectID : string) (fic : option FederatedIdentityCredential)
  : Exec D (option error) :=
  mlog_Debug "Adding federated credential" [("objectID", objectID)] ;;
  '(fic, err) <- send ctx (PostFederatedIdentityCredential objectID fic)
                   (FederatedIdentityCredentials_Post (graphServiceClient c)
                      objectID ctx fic) ;;
  match err with
  | Some e => ret (Some e)
  | None =>
      additionalData <- (r <- deref fic ;; ret (GetAdditionalData r)) ;;
      '(graphErr, err) <- classify additionalData ;;
      match err with
      | Some e => ret (Some e)
      | None =>
          match graphErr with
          | Some ge => ret (Some (graphErrorValue ge))
          | None => ret None
          end
      end
  end.

(** The loop of GetFederatedCredential over [resp.GetValue()], with the
    return that follows it. *)
Fixpoint scanIssuer (issuer : string)
  (value : list (option FederatedIdentityCredential))
  : Exec D (option FederatedIdentityCredential * option error) :=
  match value with
  | [] => ret (None, Some ErrFederatedCredentialNotFound)
  | fic :: rest =>
      ficIssuer <- (receiver <- deref fic ;; deref (GetIssuer receiver)) ;;
      if String.eqb ficIssuer issuer then ret (fic, None)
      else scanIssuer issuer rest
  end.

(** GetFederatedCredential gets a federated credential from the cloud
    provider. *)
Definition GetFederatedCredential (c : AzureClient D) (ctx : Context)
  (objectID issuer subject : string)
  : Exec D (option FederatedIdentityCredential * option error) :=
  mlog_Debug "Getting federated credential"
    [("objectID", objectID); ("issuer", issuer); ("subject", subject)] ;;
  (* Filtering on more than one resource is currently not supported. *)
  let filter := getSubjectFilter subject in
  '(resp, err) <- send ctx (GetFederatedIdentityCredentials objectID filter)
                    (FederatedIdentityCredentials_Get (graphServiceClient c)
                       objectID ctx filter) ;;
  match err with
  | Some e => ret (None, Some e)
  | None =>
      additionalData <- (r <- deref resp ;; ret (GetAdditionalData r)) ;;
      '(graphErr, err) <- classify additionalData ;;
      match err with
      | Some e => ret (None, Some e)
      | None =>
          match graphErr with
          | Some ge => ret (None, Some (graphErrorValue ge))
          | None =>
              value <- (r <- deref resp ;; ret (GetValue r)) ;;
              scanIssuer issuer value
          end
      end
  end.

(** DeleteFederatedCredential deletes a federated credential from the cloud
    provider. *)
Definition DeleteFederatedCredential (c : AzureClient D) (ctx : Context)
  (objectID federatedCredentialID : string) : Exec D (option error) :=
  mlog_Debug "Deleting federated credential"
    [("objectID", objectID); ("federatedCredentialID", federatedCredentialID)] ;;
  send ctx (DeleteFederatedIdentityCredentialById objectID federatedCredentialID)
    (FederatedIdentityCredentialsById_Delete (graphServiceClient c)
       objectID federatedCredentialID ctx).

End Gateway.

(** ** Vocabulary of the properties *)

(** The call log shows an envelope handed to the classifier right after a
    request was handed to the transport. *)
Fixpoint classifiedRightAfterTransport (evs : list Event) : bool :=
  match evs with
  | [] => false
  | e :: rest =>
      match e, rest with
      | Transport _ _, Classify _ :: _ => true
      | _, _ => classifiedRightAfterTransport rest
      end
  end.

(** The issuer and the subject of an element of a result set: none when the
    element is nil or the field is. *)
Definition issuerOf (fic : option FederatedIdentityCredential) : option string :=
  match fic with
  | Some f => GetIssuer f
  | None => None
  end.
Definition subjectOf (fic : option FederatedIdentityCredential) : option string :=
  match fic with
  | Some f => GetSubject f
  | None => None
  end.

(** The element is a credential with an issuer, and it is not the one asked
    for: the scan of GetFederatedCredential steps over it. *)
Definition issuerDiffers (issuer : string)
  (fic : option FederatedIdentityCredential) : Prop :=
  exists i, issuerOf fic = Some i /\ i <> issuer.

(** The element is a credential that carries the two fields asked for. *)
Definition matchesBoth (issuer subject : string)
  (fic : option FederatedIdentityCredential) : Prop :=
  subjectOf fic = Some subject /\ issuerOf fic = Some issuer.






(** The requests handed to the transport, in the order of the call log. *)
Fixpoint transportRequests (evs : list Event) : list Request :=
  match evs with
  | [] => []
  | Transport _ req :: rest => req :: transportRequests rest
  | _ :: rest => transportRequests rest
  end.

(** The envelopes handed to the classifier, in the order of the call log. *)
Fixpoint classifiedEnvelopes (evs : list Event) : list AdditionalData :=
  match evs with
  | [] => []
  | Classify additionalData :: rest =>
      additionalData :: classifiedEnvelopes rest
  | _ :: rest => classifiedEnvelopes rest
  end.

(** What the classifier is handed after a transport call: the additional
    data of the response, when there is a response and no error. *)
Definition envelopeOf {R : Type} `{AdditionalDataHolder R}
  (reply : option R * option error) : list AdditionalData :=
  match reply with
  | (Some r, None) => [GetAdditionalData r]
  | _ => []
  end.

(** Exactly one of the two components of a Go result [(T, error)] is nil. *)
Definition objectXorError {T : Type} (result : option T * option error)
  : Prop :=
  match result with
  | (Some _, None) | (None, Some _) => True
  | _ => False
  end.

(** ** Collaborators used in the examples *)

Fixpoint lookupField (key : string) (fields : list (string * Any)) : option Any :=
  match fields with
  | [] => None
  | (k, v) :: rest => if String.eqb k key then Some v else lookupField key rest
  end.

(** Modelled from the spec: the error classifier, [Classify(additionalData)
    -> (ServiceError | nil, decodeError)]; the Go function [GetGraphError] is
    defined in another file of package [cloud].  It returns [nil, nil] when no error object is present,
    [(err, nil)] when a well-formed error object is found, and
    [(nil, decodeError)] when the shape of the data prevents the check. *)
Definition GetGraphError_spec (additionalData : AdditionalData)
  : option GraphError * option error :=
  match additionalData !! "error" with
  | None => (None, None)
  | Some (AnyObject fields) =>
      match lookupField "code" fields, lookupField "message" fields with
      | Some (AnyString code), Some (AnyString message) =>
          (Some (mkGraphError code message), None)
      | _, _ => (None, Some (foreignError "malformed error object"))
      end
  | Some _ => (None, Some (foreignError "malformed error object"))
  end.

(** What a test double of the Graph client answers on the endpoints that
    return an object. *)
Record Replies : Type := mkReplies {
  onPostServicePrincipal : option ServicePrincipal * option error;
  onPostApplication : option Application * option error;
  onGetServicePrincipals :
    option (CollectionResponse ServicePrincipal) * option error;
  onGetApplications : option (CollectionResponse Application) * option error;
  onPostFederatedIdentityCredential :
    option FederatedIdentityCredential * option error;
  onGetFederatedIdentityCredentials :
    option (CollectionResponse FederatedIdentityCredential) * option error
}.

(** A call made with a context that is already done is aborted with the
    error of the context. *)
Definition unlessDone {R D : Type} (ctx : Context) (aborted : error -> R)
  (answer : D -> R * D) (d : D) : R * D :=
  match Err ctx with
  | Some e => (aborted e, d)
  | None => answer d
  end.

Definition resourceNotFound : error := foreignError "Request_ResourceNotFound".

(** Deleting from a directory that is the list of the objectIDs in use. *)
Definition deleteObject (objectID : string) (d : list string)
  : option error * list string :=
  if existsb (String.eqb objectID) d
  then (None, List.filter (fun x => negb (String.eqb objectID x)) d)
  else (Some resourceNotFound, d).

(** A test double of the Graph client over that directory. *)
Definition fakeGraphClient (r : Replies) : GraphServiceClient (list string) :=
  {| ServicePrincipals_Post := fun ctx _ =>
       unlessDone ctx (fun e => (None, Some e))
         (fun d => (onPostServicePrincipal r, d));
     Applications_Post := fun ctx _ =>
       unlessDone ctx (fun e => (None, Some e))
         (fun d => (onPostApplication r, d));
     ServicePrincipals_Get := fun ctx _ =>
       unlessDone ctx (fun e => (None, Some e))
         (fun d => (onGetServicePrincipals r, d));
     Applications_Get := fun ctx _ =>
       unlessDone ctx (fun e => (None, Some e))
         (fun d => (onGetApplications r, d));
     ServicePrincipalsById_Delete := fun objectID ctx =>
       unlessDone ctx Some (deleteObject objectID);
     ApplicationsById_Delete := fun objectID ctx =>
       unlessDone ctx Some (deleteObject objectID);
     FederatedIdentityCredentials_Post := fun _ ctx _ =>
       unlessDone ctx (fun e => (None, Some e))
         (fun d => (onPostFederatedIdentityCredential r, d));
     FederatedIdentityCredentials_Get := fun _ ctx _ =>
       unlessDone ctx (fun e => (None, Some e))
         (fun d => (onGetFederatedIdentityCredentials r, d));
     FederatedIdentityCredentialsById_Delete := fun _ ficID ctx =>
       unlessDone ctx Some (deleteObject ficID) |}.

Definition fakeClient (r : Replies) : AzureClient (list string) :=
  mkAzureClient (fakeGraphClient r).

Definition background : Context := mkContext None.
Definition contextCanceled : error := foreignError "context canceled".
Definition canceled : Context := mkContext (Some contextCanceled).

(** Sample objects. *)
Definition cleanData : AdditionalData := ∅.
Definition errorData : AdditionalData :=
  {[ "error" := AnyObject [("code", AnyString "Request_BadRequest");
                           ("message", AnyString "Invalid value specified")] ]}.
Definition badRequest : GraphError :=
  mkGraphError "Request_BadRequest" "Invalid value specified".

Definition sampleSP (id : string) (data : AdditionalData) : ServicePrincipal :=
  mkServicePrincipal (Some id) (Some "app-1") (Some "foo") ["tag"] data.
Definition sampleApp (id : string) (data : AdditionalData) : Application :=
  mkApplication (Some id) (Some "app-1") (Some "foo") data.
Definition sampleFIC (id : string) (issuer subject : option string)
  (data : AdditionalData) : FederatedIdentityCredential :=
  mkFederatedIdentityCredential (Some id) (Some "fic") issuer subject
    ["api://AzureADTokenExchange"] data.

(** Every endpoint answers with one object, or a one-element collection,
    carrying [data]. *)
Definition repliesWith (data : AdditionalData) : Replies :=
  {| onPostServicePrincipal := (Some (sampleSP "sp-1" data), None);
     onPostApplication := (Some (sampleApp "obj-1" data), None);
     onGetServicePrincipals :=
       (Some (mkCollectionResponse [Some (sampleSP "sp-1" cleanData)] data),
        None);
     onGetApplications :=
       (Some (mkCollectionResponse [Some (sampleApp "obj-1" cleanData)] data),
        None);
     onPostFederatedIdentityCredential :=
       (Some (sampleFIC "fic-1" (Some "https://issuer") (Some "sub") data), None);
     onGetFederatedIdentityCredentials :=
       (Some (mkCollectionResponse
                [Some (sampleFIC "fic-1" (Some "https://issuer") (Some "sub")
                         cleanData)]
                data), None) |}.

(** The by-name and by-subject lookups answer with the given collections,
    carrying [data]. *)
Definition repliesListing (data : AdditionalData)
  (sps : list (option ServicePrincipal)) (apps : list (option Application))
  (fics : list (option FederatedIdentityCredential)) : Replies :=
  {| onPostServicePrincipal := (None, None);
     onPostApplication := (None, None);
     onGetServicePrincipals := (Some (mkCollectionResponse sps data), None);
     onGetApplications := (Some (mkCollectionResponse apps data), None);
     onPostFederatedIdentityCredential := (None, None);
     onGetFederatedIdentityCredentials :=
       (Some (mkCollectionResponse fics data), None) |}.

(** The service answers the creation of a credential with [created]. *)
Definition repliesCreated (created : FederatedIdentityCredential) : Replies :=
  {| onPostServicePrincipal := (None, None);
     onPostApplication := (None, None);
     onGetServicePrincipals := (None, None);
     onGetApplications := (None, None);
     onPostFederatedIdentityCredential := (Some created, None);
     onGetFederatedIdentityCredentials := (None, None) |}.

Definition cleanClient : AzureClient (list string) :=
  fakeClient (repliesWith cleanData).
Definition failingClient : AzureClient (list string) :=
  fakeClient (repliesWith errorData).
Definition emptyClient : AzureClient (list string) :=
  fakeClient (repliesListing cleanData [] [] []).
Definition emptyFailingClient : AzureClient (list string) :=
  fakeClient (repliesListing errorData [] [] []).

Definition fooSP1 : ServicePrincipal := sampleSP "sp-1" cleanData.
Definition fooSP2 : ServicePrincipal := sampleSP "sp-2" cleanData.
Definition fooApp1 : Application := sampleApp "obj-1" cleanData.
Definition fooApp2 : Application := sampleApp "obj-2" cleanData.
Definition twoFooClient : AzureClient (list string) :=
  fakeClient (repliesListing cleanData [Some fooSP1; Some fooSP2]
                [Some fooApp1; Some fooApp2] []).

Definition ficOtherIssuer : FederatedIdentityCredential :=
  sampleFIC "fic-1" (Some "https://other") (Some "sub") cleanData.
Definition ficWanted : FederatedIdentityCredential :=
  sampleFIC "fic-2" (Some "https://issuer") (Some "sub") cleanData.
Definition ficOtherSubject : FederatedIdentityCredential :=
  sampleFIC "fic-3" (Some "https://issuer") (Some "other") cleanData.
Definition ficNoIssuer : FederatedIdentityCredential :=
  sampleFIC "fic-4" None (Some "sub") cleanData.

Definition ficClient (fics : list (option FederatedIdentityCredential))
  : AzureClient (list string) :=
  fakeClient (repliesListing cleanData [] [] fics).

(** The lookups by name answer with a result set whose first element is
    nil. *)
Definition nilFirstClient : AzureClient (list string) :=
  fakeClient (repliesListing cleanData [None; Some fooSP1]
                [None; Some fooApp1] []).

Definition world0 : World (list string) := mkWorld ["sp-1"; "obj-1"; "fic-1"] [].

(** The envelope holds something under the error key that is not an error
    object. *)
Definition malformedData : AdditionalData := {[ "error" := AnyString "oops" ]}.
Definition malformedClient : AzureClient (list string) :=
  fakeClient (repliesWith malformedData).
Definition malformedError : error := foreignError "malformed error object".

(** The transport answers every request with neither an object nor an
    error. *)
Definition silentReplies : Replies :=
  {| onPostServicePrincipal := (None, None);
     onPostApplication := (None, None);
     onGetServicePrincipals := (None, None);
     onGetApplications := (None, None);
     onPostFederatedIdentityCredential := (None, None);
     onGetFederatedIdentityCredentials := (None, None) |}.
Definition silentClient : AzureClient (list string) := fakeClient silentReplies.

(** ** Running the operations *)

(** Unfolds the monad and the calls to collaborators, then tidies the call
    log into [calls w ++ [e1; ...; en]]. *)
Ltac run_exec :=
  unfold bind, send, mlog_Debug, classify, record, deref, index, ret, panic;
  cbn [directory calls fst snd].
Ltac tidy_log := rewrite <- ?List.app_assoc; cbn [List.app app].
Ltac run_with H := run_exec; rewrite ?H; run_exec; tidy_log.

Section Running.

Context {D : Type}.
Variable GetGraphError : AdditionalData -> option GraphError * option error.
Variable c : AzureClient D.
Variable ctx : Context.
Variable w : World D.

(** What an operation that returns an object makes of the verdict of the
    classifier; [clean] is its answer when the envelope holds no error. *)
Definition afterVerdict {T : Type} (verdict : option GraphError * option error)
  (clean : Outcome (option T * option error))
  : Outcome (option T * option error) :=
  match verdict with
  | (_, Some e) => Returned (None, Some e)
  | (Some ge, None) => Returned (None, Some (graphErrorValue ge))
  | (None, None) => clean
  end.

Definition firstOr {T : Type} (value : list (option T)) (notFound : error)
  : Outcome (option T * option error) :=
  match value with
  | [] => Returned (None, Some notFound)
  | x :: _ => Returned (x, None)
  end.

Definition spNotFound (displayName : string) : error :=
  errorsErrorf ("service principal " +:+ displayName +:+ " not found").
Definition appNotFound (displayName : string) : error :=
  errorsErrorf
    ("application with display name '" +:+ displayName +:+ "' not found").

Definition spBody (appID : string) (tags : list string) : ServicePrincipal :=
  SetTags tags (SetAppId (Some appID) NewServicePrincipal).
Definition appBody (displayName : string) : Application :=
  SetDisplayName (Some displayName) NewApplication.

Definition ficLog (objectID issuer subject : string) : Event :=
  LogDebug "Getting federated credential"
    [("objectID", objectID); ("issuer", issuer); ("subject", subject)].

(** The scan leaves the world as it is. *)
Lemma scanIssuer_world (issuer : string)
  (value : list (option FederatedIdentityCredential)) (w0 : World D) :
  snd (scanIssuer issuer value w0) = w0.
Proof.
  induction value as [|fic rest IH]; cbn; [reflexivity|].
  unfold bind, deref. destruct fic as [f|]; cbn; [|reflexivity].
  destruct (GetIssuer f) as [i|]; cbn; [|reflexivity].
  destruct (String.eqb i issuer); [reflexivity|exact IH].
Qed.

(** Nor does its outcome depend on the world. *)
Lemma scanIssuer_outcome (issuer : string)
  (value : list (option FederatedIdentityCredential)) (w0 w1 : World D) :
  fst (scanIssuer issuer value w0) = fst (scanIssuer issuer value w1).
Proof.
  induction value as [|fic rest IH]; cbn; [reflexivity|].
  unfold bind, deref. destruct fic as [f|]; cbn; [|reflexivity].
  destruct (GetIssuer f) as [i|]; cbn; [|reflexivity].
  destruct (String.eqb i issuer); [reflexivity|exact IH].
Qed.

Lemma CreateServicePrincipal_failed appID tags r e d' :
  ServicePrincipals_Post (graphServiceClient c) ctx (spBody appID tags)
    (directory w) = ((r, Some e), d') ->
  CreateServicePrincipal GetGraphError c ctx appID tags w =
    (Returned (None, Some e),
     mkWorld d' (calls w ++
       [LogDebug "Creating service principal for application" [("id", appID)];
        Transport ctx (PostServicePrincipal (spBody appID tags))])).
Proof.
  intros H. unfold CreateServicePrincipal, spBody in *. run_with H.
  reflexivity.
Qed.

Lemma CreateServicePrincipal_answered appID tags sp d' :
  ServicePrincipals_Post (graphServiceClient c) ctx (spBody appID tags)
    (directory w) = ((Some sp, None), d') ->
  CreateServicePrincipal GetGraphError c ctx appID tags w =
    (afterVerdict (GetGraphError (GetAdditionalData sp))
       (Returned (Some sp, None)),
     mkWorld d' (calls w ++
       [LogDebug "Creating service principal for application" [("id", appID)];
        Transport ctx (PostServicePrincipal (spBody appID tags));
        Classify (GetAdditionalData sp)])).
Proof.
  intros H. unfold CreateServicePrincipal, spBody in *. run_with H.
  destruct (GetGraphError (GetAdditionalData sp)) as [[ge|] [e|]];
    reflexivity.
Qed.

Lemma CreateApplication_failed displayName r e d' :
  Applications_Post (graphServiceClient c) ctx (appBody displayName)
    (directory w) = ((r, Some e), d') ->
  CreateApplication GetGraphError c ctx displayName w =
    (Returned (None, Some e),
     mkWorld d' (calls w ++
       [LogDebug "Creating application" [("displayName", displayName)];
        Transport ctx (PostApplication (appBody displayName))])).
Proof.
  intros H. unfold CreateApplication, appBody in *. run_with H. reflexivity.
Qed.

Lemma CreateApplication_answered displayName app d' :
  Applications_Post (graphServiceClient c) ctx (appBody displayName)
    (directory w) = ((Some app, None), d') ->
  CreateApplication GetGraphError c ctx displayName w =
    (afterVerdict (GetGraphError (GetAdditionalData app))
       (Returned (Some app, None)),
     mkWorld d' (calls w ++
       [LogDebug "Creating application" [("displayName", displayName)];
        Transport ctx (PostApplication (appBody displayName));
        Classify (GetAdditionalData app)])).
Proof.
  intros H. unfold CreateApplication, appBody in *. run_with H.
  destruct (GetGraphError (GetAdditionalData app)) as [[ge|] [e|]];
    reflexivity.
Qed.

Lemma GetServicePrincipal_failed displayName r e d' :
  ServicePrincipals_Get (graphServiceClient c) ctx
    (getDisplayNameFilter displayName) (directory w) = ((r, Some e), d') ->
  GetServicePrincipal GetGraphError c ctx displayName w =
    (Returned (None, Some e),
     mkWorld d' (calls w ++
       [LogDebug "Getting service principal" [("displayName", displayName)];
        Transport ctx (GetServicePrincipals (getDisplayNameFilter displayName))])).
Proof.
  intros H. unfold GetServicePrincipal. run_with H. reflexivity.
Qed.

Lemma GetServicePrincipal_answered displayName resp d' :
  ServicePrincipals_Get (graphServiceClient c) ctx
    (getDisplayNameFilter displayName) (directory w)
    = ((Some resp, None), d') ->
  GetServicePrincipal GetGraphError c ctx displayName w =
    (afterVerdict (GetGraphError (GetAdditionalData resp))
       (firstOr (GetValue resp) (spNotFound displayName)),
     mkWorld d' (calls w ++
       [LogDebug "Getting service principal" [("displayName", displayName)];
        Transport ctx (GetServicePrincipals (getDisplayNameFilter displayName));
        Classify (GetAdditionalData resp)])).
Proof.
  intros H. unfold GetServicePrincipal. run_with H.
  destruct (GetGraphError (GetAdditionalData resp)) as [[ge|] [e|]];
    try reflexivity.
  cbn. destruct (GetValue resp) as [|x rest]; reflexivity.
Qed.

Lemma GetApplication_failed displayName r e d' :
  Applications_Get (graphServiceClient c) ctx
    (getDisplayNameFilter displayName) (directory w) = ((r, Some e), d') ->
  GetApplication GetGraphError c ctx displayName w =
    (Returned (None, Some e),
     mkWorld d' (calls w ++
       [LogDebug "Getting application" [("displayName", displayName)];
        Transport ctx (GetApplications (getDisplayNameFilter displayName))])).
Proof.
  intros H. unfold GetApplication. run_with H. reflexivity.
Qed.

Lemma GetApplication_answered displayName resp d' :
  Applications_Get (graphServiceClient c) ctx
    (getDisplayNameFilter displayName) (directory w)
    = ((Some resp, None), d') ->
  GetApplication GetGraphError c ctx displayName w =
    (afterVerdict (GetGraphError (GetAdditionalData resp))
       (firstOr (GetValue resp) (appNotFound displayName)),
     mkWorld d' (calls w ++
       [LogDebug "Getting application" [("displayName", displayName)];
        Transport ctx (GetApplications (getDisplayNameFilter displayName));
        Classify (GetAdditionalData resp)])).
Proof.
  intros H. unfold GetApplication. run_with H.
  destruct (GetGraphError (GetAdditionalData resp)) as [[ge|] [e|]];
    try reflexivity.
  cbn. destruct (GetValue resp) as [|x rest]; reflexivity.
Qed.

Lemma AddFederatedCredential_failed objectID fic r e d' :
  FederatedIdentityCredentials_Post (graphServiceClient c) objectID ctx fic
    (directory w) = ((r, Some e), d') ->
  AddFederatedCredential GetGraphError c ctx objectID fic w =
    (Returned (Some e),
     mkWorld d' (calls w ++
       [LogDebug "Adding federated credential" [("objectID", objectID)];
        Transport ctx (PostFederatedIdentityCredential objectID fic)])).
Proof.
  intros H. unfold AddFederatedCredential. run_with H. reflexivity.
Qed.

Lemma AddFederatedCredential_answered objectID fic created d' :
  FederatedIdentityCredentials_Post (graphServiceClient c) objectID ctx fic
    (directory w) = ((Some created, None), d') ->
  AddFederatedCredential GetGraphError c ctx objectID fic w =
    (Returned
       match GetGraphError (GetAdditionalData created) with
       | (_, Some e) => Some e
       | (Some ge, None) => Some (graphErrorValue ge)
       | (None, None) => None
       end,
     mkWorld d' (calls w ++
       [LogDebug "Adding federated credential" [("objectID", objectID)];
        Transport ctx (PostFederatedIdentityCredential objectID fic);
        Classify (GetAdditionalData created)])).
Proof.
  intros H. unfold AddFederatedCredential. run_with H.
  destruct (GetGraphError (GetAdditionalData created)) as [[ge|] [e|]];
    reflexivity.
Qed.

Lemma GetFederatedCredential_failed objectID issuer subject r e d' :
  FederatedIdentityCredentials_Get (graphServiceClient c) objectID ctx
    (getSubjectFilter subject) (directory w) = ((r, Some e), d') ->
  GetFederatedCredential GetGraphError c ctx objectID issuer subject w =
    (Returned (None, Some e),
     mkWorld d' (calls w ++
       [ficLog objectID issuer subject;
        Transport ctx (GetFederatedIdentityCredentials objectID
                         (getSubjectFilter subject))])).
Proof.
  intros H. unfold GetFederatedCredential. run_with H. reflexivity.
Qed.

Lemma GetFederatedCredential_answered objectID issuer subject resp d' :
  FederatedIdentityCredentials_Get (graphServiceClient c) objectID ctx
    (getSubjectFilter subject) (directory w) = ((Some resp, None), d') ->
  GetFederatedCredential GetGraphError c ctx objectID issuer subject w =
    (afterVerdict (GetGraphError (GetAdditionalData resp))
       (fst (scanIssuer issuer (GetValue resp) w)),
     mkWorld d' (calls w ++
       [ficLog objectID issuer subject;
        Transport ctx (GetFederatedIdentityCredentials objectID
                         (getSubjectFilter subject));
        Classify (GetAdditionalData resp)])).
Proof.
  intros H. unfold GetFederatedCredential. run_with H.
  destruct (GetGraphError (GetAdditionalData resp)) as [[ge|] [e|]];
    try reflexivity.
  cbn.
  match goal with
  | |- scanIssuer ?i ?v ?w1 = _ =>
      rewrite (surjective_pairing (scanIssuer i v w1)),
        (scanIssuer_world i v w1), (scanIssuer_outcome i v w1 w)
  end.
  reflexivity.
Qed.

Lemma DeleteServicePrincipal_run objectID :
  DeleteServicePrincipal c ctx objectID w =
    (Returned (fst (ServicePrincipalsById_Delete (graphServiceClient c)
                      objectID ctx (directory w))),
     mkWorld (snd (ServicePrincipalsById_Delete (graphServiceClient c)
                     objectID ctx (directory w)))
       (calls w ++
          [LogDebug "Deleting service principal" [("objectID", objectID)];
           Transport ctx (DeleteServicePrincipalById objectID)])).
Proof.
  unfold DeleteServicePrincipal. run_exec.
  destruct (ServicePrincipalsById_Delete _ _ _ _) as [err d']. tidy_log.
  reflexivity.
Qed.

Lemma DeleteApplication_run objectID :
  DeleteApplication c ctx objectID w =
    (Returned (fst (ApplicationsById_Delete (graphServiceClient c)
                      objectID ctx (directory w))),
     mkWorld (snd (ApplicationsById_Delete (graphServiceClient c)
                     objectID ctx (directory w)))
       (calls w ++
          [LogDebug "Deleting application" [("objectID", objectID)];
           Transport ctx (DeleteApplicationById objectID)])).
Proof.
  unfold DeleteApplication. run_exec.
  destruct (ApplicationsById_Delete _ _ _ _) as [err d']. tidy_log.
  reflexivity.
Qed.

Lemma DeleteFederatedCredential_run objectID ficID :
  DeleteFederatedCredential c ctx objectID ficID w =
    (Returned (fst (FederatedIdentityCredentialsById_Delete
                      (graphServiceClient c) objectID ficID ctx (directory w))),
     mkWorld (snd (FederatedIdentityCredentialsById_Delete
                     (graphServiceClient c) objectID ficID ctx (directory w)))
       (calls w ++
          [LogDebug "Deleting federated credential"
             [("objectID", objectID); ("federatedCredentialID", ficID)];
           Transport ctx
             (DeleteFederatedIdentityCredentialById objectID ficID)])).
Proof.
  unfold DeleteFederatedCredential. run_exec.
  destruct (FederatedIdentityCredentialsById_Delete _ _ _ _ _) as [err d'].
  tidy_log. reflexivity.
Qed.

End Running.

(** ** The client-side scan for the issuer *)

Section Scan.

Context {D : Type}.
Variable issuer : string.
Variable w : World D.

(** One step of the scan, by what the element is. *)
Lemma scanIssuer_step (fic : option FederatedIdentityCredential) rest :
  scanIssuer issuer (fic :: rest) w =
    match issuerOf fic with
    | None => (Panicked nilDereference, w)
    | Some i =>
        if String.eqb i issuer then (Returned (fic, None), w)
        else scanIssuer issuer rest w
    end.
Proof.
  cbn. unfold bind, deref. destruct fic as [f|]; cbn; [|reflexivity].
  destruct (GetIssuer f) as [i|]; cbn; [|reflexivity].
  destruct (String.eqb i issuer); reflexivity.
Qed.

Lemma scanIssuer_skips fic rest :
  issuerDiffers issuer fic ->
  scanIssuer issuer (fic :: rest) w = scanIssuer issuer rest w.
Proof.
  intros (i & Hi & Hne). rewrite scanIssuer_step, Hi.
  destruct (String.eqb_spec i issuer) as [->|_]; [contradiction|reflexivity].
Qed.

Lemma scanIssuer_not_found value :
  Forall (issuerDiffers issuer) value ->
  scanIssuer issuer value w =
    (Returned (None, Some ErrFederatedCredentialNotFound), w).
Proof.
  induction 1 as [|fic rest Hfic _ IH]; [reflexivity|].
  rewrite scanIssuer_skips by assumption. exact IH.
Qed.

(** A credential that the scan returns is the first one of the list whose
    issuer is the one asked for. *)
Lemma scanIssuer_found value fic err :
  fst (scanIssuer issuer value w) = Returned (Some fic, err) ->
  err = None /\ GetIssuer fic = Some issuer /\
  exists before after,
    value = before ++ Some fic :: after /\ Forall (issuerDiffers issuer) before.
Proof.
  induction value as [|x rest IH]; [cbn; discriminate|].
  rewrite scanIssuer_step. destruct (issuerOf x) as [i|] eqn:Hi;
    [|cbn; discriminate].
  destruct (String.eqb_spec i issuer) as [->|Hne]; cbn.
  - intros [= -> <-]. repeat split; [exact Hi|].
    exists [], rest. split; [reflexivity|constructor].
  - intros H. destruct (IH H) as (He & Hfic & before & after & -> & Hall).
    repeat split; [assumption..|].
    exists (x :: before), after. split; [reflexivity|].
    constructor; [exists i; split; assumption|assumption].
Qed.

(** The scan panics exactly when it meets a nil element or a nil issuer
    before it meets the issuer asked for. *)
Lemma scanIssuer_panics value why :
  fst (scanIssuer issuer value w) = Panicked why <->
  why = nilDereference /\
  exists before fic after,
    value = before ++ fic :: after /\ issuerOf fic = None /\
    Forall (issuerDiffers issuer) before.
Proof.
  split.
  - induction value as [|x rest IH]; [cbn; discriminate|].
    rewrite scanIssuer_step. destruct (issuerOf x) as [i|] eqn:Hi.
    + destruct (String.eqb_spec i issuer) as [->|Hne]; cbn; [discriminate|].
      intros H. destruct (IH H) as (-> & before & fic & after & -> & Hnil & Hall).
      split; [reflexivity|]. exists (x :: before), fic, after.
      repeat split; [assumption|].
      constructor; [exists i; split; assumption|assumption].
    + intros [= <-]. split; [reflexivity|]. exists [], x, rest.
      repeat split; [assumption|constructor].
  - intros (-> & before & fic & after & -> & Hnil & Hall).
    induction Hall as [|x before Hx _ IH]; cbn [List.app app].
    + rewrite scanIssuer_step, Hnil. reflexivity.
    + rewrite scanIssuer_skips by assumption. exact IH.
Qed.

Lemma scanIssuer_returns value :
  Forall (fun fic => issuerOf fic <> None) value ->
  exists result, fst (scanIssuer issuer value w) = Returned result.
Proof.
  induction 1 as [|x rest Hx _ IH]; [eexists; reflexivity|].
  rewrite scanIssuer_step. destruct (issuerOf x) as [i|]; [|contradiction].
  destruct (String.eqb i issuer); [eexists; reflexivity|exact IH].
Qed.

End Scan.

(** On a response filtered by subject, where every element is a credential
    with an issuer, the credentials that do not match both fields are those
    with another issuer. *)
Lemma no_match_issuerDiffers (issuer subject : string)
  (value : list (option FederatedIdentityCredential)) :
  Forall (fun f => subjectOf f = Some subject /\ issuerOf f <> None) value ->
  ~ Exists (matchesBoth issuer subject) value ->
  Forall (issuerDiffers issuer) value.
Proof.
  induction 1 as [|f rest [Hsub Hiss] _ IH]; intros Hnomatch; constructor.
  - destruct (issuerOf f) as [i|] eqn:Hi; [|contradiction].
    exists i. split; [exact Hi|]. intros ->.
    apply Hnomatch, Exists_cons_hd. split; assumption.
  - apply IH. intros Hex. apply Hnomatch, Exists_cons_tl, Hex.
Qed.

(** ** Reading back the filters *)

Lemma append_nil (s : string) : "" +:+ s = s.
Proof. reflexivity. Qed.

Lemma append_cons (ch : ascii) (a b : string) :
  String ch a +:+ b = String ch (a +:+ b).
Proof. reflexivity. Qed.







(** ** Properties of the gateway *)

Ltac answered L H :=
  erewrite L by exact H; cbn [fst snd calls directory].

Section Claims.

Context {D : Type}.
Variable GetGraphError : AdditionalData -> option GraphError * option error.
Variable c : AzureClient D.
Variable ctx : Context.
Variable w : World D.

Local Abbreviation gc := (graphServiceClient c).

(** C1 (as amended): the six operations that get a response object from the
    transport (CreateServicePrincipal, CreateApplication, GetServicePrincipal,
    GetApplication, AddFederatedCredential, GetFederatedCredential) hand the
    additional data of that response to the classifier right after the
    transport call has succeeded, and their outcome is what the verdict of
    the classifier allows; the three delete operations get no response
    object: they make the transport call and return its error as it is,
    without calling the classifier. *)
Theorem classifier_follows_transport_where_a_response_exists :
  (forall appID tags sp d',
      ServicePrincipals_Post gc ctx (spBody appID tags) (directory w)
        = ((Some sp, None), d') ->
      CreateServicePrincipal GetGraphError c ctx appID tags w =
        (afterVerdict (GetGraphError (GetAdditionalData sp))
           (Returned (Some sp, None)),
         mkWorld d' (calls w ++
           [LogDebug "Creating service principal for application"
              [("id", appID)];
            Transport ctx (PostServicePrincipal (spBody appID tags));
            Classify (GetAdditionalData sp)])))
  /\ (forall displayName app d',
      Applications_Post gc ctx (appBody displayName) (directory w)
        = ((Some app, None), d') ->
      CreateApplication GetGraphError c ctx displayName w =
        (afterVerdict (GetGraphError (GetAdditionalData app))
           (Returned (Some app, None)),
         mkWorld d' (calls w ++
           [LogDebug "Creating application" [("displayName", displayName)];
            Transport ctx (PostApplication (appBody displayName));
            Classify (GetAdditionalData app)])))
  /\ (forall displayName resp d',
      ServicePrincipals_Get gc ctx (getDisplayNameFilter displayName)
        (directory w) = ((Some resp, None), d') ->
      GetServicePrincipal GetGraphError c ctx displayName w =
        (afterVerdict (GetGraphError (GetAdditionalData resp))
           (firstOr (GetValue resp) (spNotFound displayName)),
         mkWorld d' (calls w ++
           [LogDebug "Getting service principal"
              [("displayName", displayName)];
            Transport ctx
              (GetServicePrincipals (getDisplayNameFilter displayName));
            Classify (GetAdditionalData resp)])))
  /\ (forall displayName resp d',
      Applications_Get gc ctx (getDisplayNameFilter displayName)
        (directory w) = ((Some resp, None), d') ->
      GetApplication GetGraphError c ctx displayName w =
        (afterVerdict (GetGraphError (GetAdditionalData resp))
           (firstOr (GetValue resp) (appNotFound displayName)),
         mkWorld d' (calls w ++
           [LogDebug "Getting application" [("displayName", displayName)];
            Transport ctx (GetApplications (getDisplayNameFilter displayName));
            Classify (GetAdditionalData resp)])))
  /\ (forall objectID fic created d',
      FederatedIdentityCredentials_Post gc objectID ctx fic (directory w)
        = ((Some created, None), d') ->
      AddFederatedCredential GetGraphError c ctx objectID fic w =
        (Returned
           match GetGraphError (GetAdditionalData created) with
           | (_, Some e) => Some e
           | (Some ge, None) => Some (graphErrorValue ge)
           | (None, None) => None
           end,
         mkWorld d' (calls w ++
           [LogDebug "Adding federated credential" [("objectID", objectID)];
            Transport ctx (PostFederatedIdentityCredential objectID fic);
            Classify (GetAdditionalData created)])))
  /\ (forall objectID issuer subject resp d',
      FederatedIdentityCredentials_Get gc objectID ctx
        (getSubjectFilter subject) (directory w) = ((Some resp, None), d') ->
      GetFederatedCredential GetGraphError c ctx objectID issuer subject w =
        (afterVerdict (GetGraphError (GetAdditionalData resp))
           (fst (scanIssuer issuer (GetValue resp) w)),
         mkWorld d' (calls w ++
           [ficLog objectID issuer subject;
            Transport ctx (GetFederatedIdentityCredentials objectID
                             (getSubjectFilter subject));
            Classify (GetAdditionalData resp)])))
  /\ (forall objectID,
      fst (DeleteServicePrincipal c ctx objectID w) =
        Returned (fst (ServicePrincipalsById_Delete gc objectID ctx (directory w)))
      /\ calls (snd (DeleteServicePrincipal c ctx objectID w)) =
        calls w ++
          [LogDebug "Deleting service principal" [("objectID", objectID)];
           Transport ctx (DeleteServicePrincipalById objectID)])
  /\ (forall objectID,
      fst (DeleteApplication c ctx objectID w) =
        Returned (fst (ApplicationsById_Delete gc objectID ctx (directory w)))
      /\ calls (snd (DeleteApplication c ctx objectID w)) =
        calls w ++
          [LogDebug "Deleting application" [("objectID", objectID)];
           Transport ctx (DeleteApplicationById objectID)])
  /\ (forall objectID ficID,
      fst (DeleteFederatedCredential c ctx objectID ficID w) =
        Returned (fst (FederatedIdentityCredentialsById_Delete gc objectID
                         ficID ctx (directory w)))
      /\ calls (snd (DeleteFederatedCredential c ctx objectID ficID w)) =
        calls w ++
          [LogDebug "Deleting federated credential"
             [("objectID", objectID); ("federatedCredentialID", ficID)];
           Transport ctx
             (DeleteFederatedIdentityCredentialById objectID ficID)]).
Proof.
  repeat apply conj.
  - intros * H. exact (CreateServicePrincipal_answered _ _ _ _ _ _ _ _ H).
  - intros * H. exact (CreateApplication_answered _ _ _ _ _ _ _ H).
  - intros * H. exact (GetServicePrincipal_answered _ _ _ _ _ _ _ H).
  - intros * H. exact (GetApplication_answered _ _ _ _ _ _ _ H).
  - intros * H. exact (AddFederatedCredential_answered _ _ _ _ _ _ _ _ H).
  - intros * H. exact (GetFederatedCredential_answered _ _ _ _ _ _ _ _ _ H).
  - intros objectID. rewrite DeleteServicePrincipal_run. split; reflexivity.
  - intros objectID. rewrite DeleteApplication_run. split; reflexivity.
  - intros objectID ficID. rewrite DeleteFederatedCredential_run.
    split; reflexivity.
Qed.

(** C2: when the additional data of the response holds a well-formed service
    error, that is when the classifier returns a graph error and no error of
    its own, each of the six operations that classify the response returns
    that graph error, dereferenced, and no object with it. *)
Theorem service_error_is_returned_without_an_object :
  (forall appID tags sp d' ge,
      ServicePrincipals_Post gc ctx (spBody appID tags) (directory w)
        = ((Some sp, None), d') ->
      GetGraphError (GetAdditionalData sp) = (Some ge, None) ->
      fst (CreateServicePrincipal GetGraphError c ctx appID tags w) =
        Returned (None, Some (graphErrorValue ge)))
  /\ (forall displayName app d' ge,
      Applications_Post gc ctx (appBody displayName) (directory w)
        = ((Some app, None), d') ->
      GetGraphError (GetAdditionalData app) = (Some ge, None) ->
      fst (CreateApplication GetGraphError c ctx displayName w) =
        Returned (None, Some (graphErrorValue ge)))
  /\ (forall displayName resp d' ge,
      ServicePrincipals_Get gc ctx (getDisplayNameFilter displayName)
        (directory w) = ((Some resp, None), d') ->
      GetGraphError (GetAdditionalData resp) = (Some ge, None) ->
      fst (GetServicePrincipal GetGraphError c ctx displayName w) =
        Returned (None, Some (graphErrorValue ge)))
  /\ (forall displayName resp d' ge,
      Applications_Get gc ctx (getDisplayNameFilter displayName)
        (directory w) = ((Some resp, None), d') ->
      GetGraphError (GetAdditionalData resp) = (Some ge, None) ->
      fst (GetApplication GetGraphError c ctx displayName w) =
        Returned (None, Some (graphErrorValue ge)))
  /\ (forall objectID fic created d' ge,
      FederatedIdentityCredentials_Post gc objectID ctx fic (directory w)
        = ((Some created, None), d') ->
      GetGraphError (GetAdditionalData created) = (Some ge, None) ->
      fst (AddFederatedCredential GetGraphError c ctx objectID fic w) =
        Returned (Some (graphErrorValue ge)))
  /\ (forall objectID issuer subject resp d' ge,
      FederatedIdentityCredentials_Get gc objectID ctx
        (getSubjectFilter subject) (directory w) = ((Some resp, None), d') ->
      GetGraphError (GetAdditionalData resp) = (Some ge, None) ->
      fst (GetFederatedCredential GetGraphError c ctx objectID issuer subject w)
        = Returned (None, Some (graphErrorValue ge))).
Proof.
  repeat apply conj; intros * H HG.
  - answered @CreateServicePrincipal_answered H. rewrite HG. reflexivity.
  - answered @CreateApplication_answered H. rewrite HG. reflexivity.
  - answered @GetServicePrincipal_answered H. rewrite HG. reflexivity.
  - answered @GetApplication_answered H. rewrite HG. reflexivity.
  - answered @AddFederatedCredential_answered H. rewrite HG. reflexivity.
  - answered @GetFederatedCredential_answered H. rewrite HG. reflexivity.
Qed.

(** C3: a lookup by name whose response holds no service error and an empty
    result set returns the not-found error, with no object and never a nil
    error; the classifier has been called on the response before that, and
    when it finds a service error the lookup returns that error, also on an
    empty result set, so that an API error is not reported as not found. *)
Theorem empty_lookup_is_not_found :
  (forall displayName resp d',
      ServicePrincipals_Get gc ctx (getDisplayNameFilter displayName)
        (directory w) = ((Some resp, None), d') ->
      GetValue resp = [] ->
      (GetGraphError (GetAdditionalData resp) = (None, None) ->
       GetServicePrincipal GetGraphError c ctx displayName w =
         (Returned (None, Some (errorsErrorf
            ("service principal " +:+ displayName +:+ " not found"))),
          mkWorld d' (calls w ++
            [LogDebug "Getting service principal"
               [("displayName", displayName)];
             Transport ctx
               (GetServicePrincipals (getDisplayNameFilter displayName));
             Classify (GetAdditionalData resp)])))
      /\ (forall ge,
           GetGraphError (GetAdditionalData resp) = (Some ge, None) ->
           fst (GetServicePrincipal GetGraphError c ctx displayName w) =
             Returned (None, Some (graphErrorValue ge))))
  /\ (forall displayName resp d',
      Applications_Get gc ctx (getDisplayNameFilter displayName)
        (directory w) = ((Some resp, None), d') ->
      GetValue resp = [] ->
      (GetGraphError (GetAdditionalData resp) = (None, None) ->
       GetApplication GetGraphError c ctx displayName w =
         (Returned (None, Some (errorsErrorf
            ("application with display name '" +:+ displayName
             +:+ "' not found"))),
          mkWorld d' (calls w ++
            [LogDebug "Getting application" [("displayName", displayName)];
             Transport ctx (GetApplications (getDisplayNameFilter displayName));
             Classify (GetAdditionalData resp)])))
      /\ (forall ge,
           GetGraphError (GetAdditionalData resp) = (Some ge, None) ->
           fst (GetApplication GetGraphError c ctx displayName w) =
             Returned (None, Some (graphErrorValue ge)))).
Proof.
  split; intros * H Hempty; split.
  - intros HG. answered @GetServicePrincipal_answered H.
    rewrite HG, Hempty. reflexivity.
  - intros ge HG. answered @GetServicePrincipal_answered H.
    rewrite HG. reflexivity.
  - intros HG. answered @GetApplication_answered H.
    rewrite HG, Hempty. reflexivity.
  - intros ge HG. answered @GetApplication_answered H.
    rewrite HG. reflexivity.
Qed.

(** C6: a lookup by name whose clean response holds two or more elements
    returns the first element of the result set, in the order of the
    response and as the response holds it, with a nil error: no error on
    ambiguity, no deduplication. *)
Theorem ambiguous_lookup_returns_first :
  (forall displayName resp d' first second others,
      ServicePrincipals_Get gc ctx (getDisplayNameFilter displayName)
        (directory w) = ((Some resp, None), d') ->
      GetGraphError (GetAdditionalData resp) = (None, None) ->
      GetValue resp = first :: second :: others ->
      fst (GetServicePrincipal GetGraphError c ctx displayName w) =
        Returned (first, None))
  /\ (forall displayName resp d' first second others,
      Applications_Get gc ctx (getDisplayNameFilter displayName)
        (directory w) = ((Some resp, None), d') ->
      GetGraphError (GetAdditionalData resp) = (None, None) ->
      GetValue resp = first :: second :: others ->
      fst (GetApplication GetGraphError c ctx displayName w) =
        Returned (first, None)).
Proof.
  split; intros * H HG Hvalue.
  - answered @GetServicePrincipal_answered H. rewrite HG, Hvalue. reflexivity.
  - answered @GetApplication_answered H. rewrite HG, Hvalue. reflexivity.
Qed.

(** C7: when the transport call fails, whatever the reason (a cancelled
    context included), each of the nine operations returns the error of the
    transport unchanged and no object; it has made that one transport call
    and no other, the classifier has not been called and the result set has
    not been looked at, so the error is never turned into a not-found. *)
Theorem transport_error_is_propagated_unchanged :
  (forall appID tags r e d',
      ServicePrincipals_Post gc ctx (spBody appID tags) (directory w)
        = ((r, Some e), d') ->
      CreateServicePrincipal GetGraphError c ctx appID tags w =
        (Returned (None, Some e),
         mkWorld d' (calls w ++
           [LogDebug "Creating service principal for application"
              [("id", appID)];
            Transport ctx (PostServicePrincipal (spBody appID tags))])))
  /\ (forall displayName r e d',
      Applications_Post gc ctx (appBody displayName) (directory w)
        = ((r, Some e), d') ->
      CreateApplication GetGraphError c ctx displayName w =
        (Returned (None, Some e),
         mkWorld d' (calls w ++
           [LogDebug "Creating application" [("displayName", displayName)];
            Transport ctx (PostApplication (appBody displayName))])))
  /\ (forall displayName r e d',
      ServicePrincipals_Get gc ctx (getDisplayNameFilter displayName)
        (directory w) = ((r, Some e), d') ->
      GetServicePrincipal GetGraphError c ctx displayName w =
        (Returned (None, Some e),
         mkWorld d' (calls w ++
           [LogDebug "Getting service principal"
              [("displayName", displayName)];
            Transport ctx
              (GetServicePrincipals (getDisplayNameFilter displayName))])))
  /\ (forall displayName r e d',
      Applications_Get gc ctx (getDisplayNameFilter displayName)
        (directory w) = ((r, Some e), d') ->
      GetApplication GetGraphError c ctx displayName w =
        (Returned (None, Some e),
         mkWorld d' (calls w ++
           [LogDebug "Getting application" [("displayName", displayName)];
            Transport ctx
              (GetApplications (getDisplayNameFilter displayName))])))
  /\ (forall objectID e d',
      ServicePrincipalsById_Delete gc objectID ctx (directory w)
        = (Some e, d') ->
      DeleteServicePrincipal c ctx objectID w =
        (Returned (Some e),
         mkWorld d' (calls w ++
           [LogDebug "Deleting service principal" [("objectID", objectID)];
            Transport ctx (DeleteServicePrincipalById objectID)])))
  /\ (forall objectID e d',
      ApplicationsById_Delete gc objectID ctx (directory w) = (Some e, d') ->
      DeleteApplication c ctx objectID w =
        (Returned (Some e),
         mkWorld d' (calls w ++
           [LogDebug "Deleting application" [("objectID", objectID)];
            Transport ctx (DeleteApplicationById objectID)])))
  /\ (forall objectID fic r e d',
      FederatedIdentityCredentials_Post gc objectID ctx fic (directory w)
        = ((r, Some e), d') ->
      AddFederatedCredential GetGraphError c ctx objectID fic w =
        (Returned (Some e),
         mkWorld d' (calls w ++
           [LogDebug "Adding federated credential" [("objectID", objectID)];
            Transport ctx (PostFederatedIdentityCredential objectID fic)])))
  /\ (forall objectID issuer subject r e d',
      FederatedIdentityCredentials_Get gc objectID ctx
        (getSubjectFilter subject) (directory w) = ((r, Some e), d') ->
      GetFederatedCredential GetGraphError c ctx objectID issuer subject w =
        (Returned (None, Some e),
         mkWorld d' (calls w ++
           [ficLog objectID issuer subject;
            Transport ctx (GetFederatedIdentityCredentials objectID
                             (getSubjectFilter subject))])))
  /\ (forall objectID ficID e d',
      FederatedIdentityCredentialsById_Delete gc objectID ficID ctx
        (directory w) = (Some e, d') ->
      DeleteFederatedCredential c ctx objectID ficID w =
        (Returned (Some e),
         mkWorld d' (calls w ++
           [LogDebug "Deleting federated credential"
              [("objectID", objectID); ("federatedCredentialID", ficID)];
            Transport ctx
              (DeleteFederatedIdentityCredentialById objectID ficID)]))).
Proof.
  repeat apply conj; intros * H.
  - exact (CreateServicePrincipal_failed _ _ _ _ _ _ _ _ _ H).
  - exact (CreateApplication_failed _ _ _ _ _ _ _ _ H).
  - exact (GetServicePrincipal_failed _ _ _ _ _ _ _ _ H).
  - exact (GetApplication_failed _ _ _ _ _ _ _ _ H).
  - rewrite DeleteServicePrincipal_run, H. reflexivity.
  - rewrite DeleteApplication_run, H. reflexivity.
  - exact (AddFederatedCredential_failed _ _ _ _ _ _ _ _ _ H).
  - exact (GetFederatedCredential_failed _ _ _ _ _ _ _ _ _ _ H).
  - rewrite DeleteFederatedCredential_run, H. reflexivity.
Qed.

(** C8: a delete operation returns exactly what the directory service
    reports for the objectID, nil or an error, after one transport call; an
    error of the service (the object does not exist) is not turned into a
    success, so that a second delete of the same objectID returns what the
    service reports the second time, on the directory as the first delete
    left it. *)
Theorem delete_surfaces_the_service_report :
  (forall objectID,
      DeleteServicePrincipal c ctx objectID w =
        (Returned (fst (ServicePrincipalsById_Delete gc objectID ctx
                          (directory w))),
         mkWorld (snd (ServicePrincipalsById_Delete gc objectID ctx
                         (directory w)))
           (calls w ++
              [LogDebug "Deleting service principal" [("objectID", objectID)];
               Transport ctx (DeleteServicePrincipalById objectID)]))
      /\ fst (bind (DeleteServicePrincipal c ctx objectID)
                 (fun _ => DeleteServicePrincipal c ctx objectID) w) =
          Returned (fst (ServicePrincipalsById_Delete gc objectID ctx
            (snd (ServicePrincipalsById_Delete gc objectID ctx
                    (directory w))))))
  /\ (forall objectID,
      DeleteApplication c ctx objectID w =
        (Returned (fst (ApplicationsById_Delete gc objectID ctx (directory w))),
         mkWorld (snd (ApplicationsById_Delete gc objectID ctx (directory w)))
           (calls w ++
              [LogDebug "Deleting application" [("objectID", objectID)];
               Transport ctx (DeleteApplicationById objectID)]))
      /\ fst (bind (DeleteApplication c ctx objectID)
                 (fun _ => DeleteApplication c ctx objectID) w) =
          Returned (fst (ApplicationsById_Delete gc objectID ctx
            (snd (ApplicationsById_Delete gc objectID ctx (directory w))))))
  /\ (forall objectID ficID,
      DeleteFederatedCredential c ctx objectID ficID w =
        (Returned (fst (FederatedIdentityCredentialsById_Delete gc objectID
                          ficID ctx (directory w))),
         mkWorld (snd (FederatedIdentityCredentialsById_Delete gc objectID
                         ficID ctx (directory w)))
           (calls w ++
              [LogDebug "Deleting federated credential"
                 [("objectID", objectID); ("federatedCredentialID", ficID)];
               Transport ctx
                 (DeleteFederatedIdentityCredentialById objectID ficID)]))
      /\ fst (bind (DeleteFederatedCredential c ctx objectID ficID)
                 (fun _ => DeleteFederatedCredential c ctx objectID ficID) w) =
          Returned (fst (FederatedIdentityCredentialsById_Delete gc objectID
            ficID ctx
            (snd (FederatedIdentityCredentialsById_Delete gc objectID ficID
                    ctx (directory w)))))).
Proof.
  repeat apply conj; intros; split.
  - apply DeleteServicePrincipal_run.
  - unfold bind. rewrite !DeleteServicePrincipal_run. reflexivity.
  - apply DeleteApplication_run.
  - unfold bind. rewrite !DeleteApplication_run. reflexivity.
  - apply DeleteFederatedCredential_run.
  - unfold bind. rewrite !DeleteFederatedCredential_run. reflexivity.
Qed.

(** C10: when the service has created the credential and its response is
    clean, AddFederatedCredential returns a nil error and nothing else: its
    result is the same whatever credential object, and so whatever
    objectID, the service answered with. *)
Theorem AddFederatedCredential_discards_the_created_object :
  forall objectID fic created d',
    FederatedIdentityCredentials_Post gc objectID ctx fic (directory w)
      = ((Some created, None), d') ->
    GetGraphError (GetAdditionalData created) = (None, None) ->
    fst (AddFederatedCredential GetGraphError c ctx objectID fic w) =
      Returned None
    /\ forall (c2 : AzureClient D) created2 d2,
        FederatedIdentityCredentials_Post (graphServiceClient c2) objectID
          ctx fic (directory w) = ((Some created2, None), d2) ->
        GetGraphError (GetAdditionalData created2) = (None, None) ->
        fst (AddFederatedCredential GetGraphError c2 ctx objectID fic w) =
          fst (AddFederatedCredential GetGraphError c ctx objectID fic w).
Proof.
  intros * H HG.
  assert (Hret : fst (AddFederatedCredential GetGraphError c ctx objectID fic w)
                 = Returned None).
  { answered @AddFederatedCredential_answered H. rewrite HG. reflexivity. }
  split; [exact Hret|].
  intros c2 created2 d2 H2 HG2. rewrite Hret.
  answered @AddFederatedCredential_answered H2. rewrite HG2. reflexivity.
Qed.

(** C4 (as amended): on a clean response, a credential that
    GetFederatedCredential returns comes with a nil error and is the first
    element of the response whose issuer equals the issuer asked for, so an
    element that matches by its subject alone is never returned; the subject
    is not compared by the client, and the returned credential carries the
    subject asked for whenever every element of the response does (the
    service has applied the subject filter); when every element of the
    response is a credential with an issuer and none has the issuer asked
    for, the result is ErrFederatedCredentialNotFound, and so it is when
    every element is a credential with the subject asked for and an issuer,
    and none matches both fields. *)
Theorem GetFederatedCredential_compares_the_issuer_only :
  forall objectID issuer subject resp d',
    FederatedIdentityCredentials_Get gc objectID ctx
      (getSubjectFilter subject) (directory w) = ((Some resp, None), d') ->
    GetGraphError (GetAdditionalData resp) = (None, None) ->
    (forall fic err,
        fst (GetFederatedCredential GetGraphError c ctx objectID issuer
               subject w) = Returned (Some fic, err) ->
        err = None /\ GetIssuer fic = Some issuer
        /\ (exists before after,
              GetValue resp = before ++ Some fic :: after
              /\ Forall (issuerDiffers issuer) before)
        /\ (Forall (fun f => subjectOf f = Some subject) (GetValue resp) ->
            matchesBoth issuer subject (Some fic)))
    /\ (Forall (issuerDiffers issuer) (GetValue resp) ->
        fst (GetFederatedCredential GetGraphError c ctx objectID issuer
               subject w) =
          Returned (None, Some ErrFederatedCredentialNotFound))
    /\ (Forall (fun f => subjectOf f = Some subject /\ issuerOf f <> None)
          (GetValue resp) ->
        ~ Exists (matchesBoth issuer subject) (GetValue resp) ->
        fst (GetFederatedCredential GetGraphError c ctx objectID issuer
               subject w) =
          Returned (None, Some ErrFederatedCredentialNotFound)).
Proof.
  intros * H HG. answered @GetFederatedCredential_answered H.
  rewrite HG. cbn [afterVerdict].
  assert (Hnone : Forall (issuerDiffers issuer) (GetValue resp) ->
            fst (scanIssuer issuer (GetValue resp) w) =
              Returned (None, Some ErrFederatedCredentialNotFound)).
  { intros Hall. rewrite (scanIssuer_not_found _ _ _ Hall). reflexivity. }
  split; [|split; [exact Hnone|]].
  - intros fic err Hret.
    destruct (scanIssuer_found _ _ _ _ _ Hret)
      as (-> & Hissuer & before & after & Hvalue & Hbefore).
    repeat apply conj; [reflexivity|exact Hissuer| |].
    + exists before, after. split; assumption.
    + intros Hsubject. split; [|exact Hissuer].
      rewrite Hvalue in Hsubject.
      apply Forall_app in Hsubject as [_ Hsubject].
      inversion Hsubject; assumption.
  - intros Hserved Hnomatch.
    apply Hnone, (no_match_issuerDiffers _ subject); assumption.
Qed.

(** C9 (as amended): when the transport has answered with a response and a
    nil error and the classifier has found no error in it,
    GetFederatedCredential calls GetIssuer() on the elements of the result
    set in order and dereferences what it returns, with no nil check on the
    element nor on the issuer, up to and including the first element whose
    issuer is the one asked for.  In that situation it returns, without a
    panic, when every element of the response is a credential with an
    issuer, and it panics on a nil dereference exactly when a nil element or
    an element without issuer is preceded only by elements whose issuer is
    not the one asked for. *)
Theorem GetFederatedCredential_nil_issuer_before_a_match_panics :
  forall objectID issuer subject resp d',
    FederatedIdentityCredentials_Get gc objectID ctx
      (getSubjectFilter subject) (directory w) = ((Some resp, None), d') ->
    GetGraphError (GetAdditionalData resp) = (None, None) ->
    (Forall (fun fic => issuerOf fic <> None) (GetValue resp) ->
     exists result,
       fst (GetFederatedCredential GetGraphError c ctx objectID issuer
              subject w) = Returned result)
    /\ (forall why,
        fst (GetFederatedCredential GetGraphError c ctx objectID issuer
               subject w) = Panicked why <->
        why = nilDereference
        /\ exists before fic after,
            GetValue resp = before ++ fic :: after
            /\ issuerOf fic = None
            /\ Forall (issuerDiffers issuer) before).
Proof.
  intros * H HG. answered @GetFederatedCredential_answered H.
  rewrite HG. cbn [afterVerdict]. split.
  - apply scanIssuer_returns.
  - apply scanIssuer_panics.
Qed.

End Claims.


(** ** The properties on sample runs *)

Lemma classifier_follows_transport_where_a_response_exists_witness :
  CreateServicePrincipal GetGraphError_spec cleanClient background "app-1"
    ["tag"] world0 =
    (Returned (Some (sampleSP "sp-1" cleanData), None),
     mkWorld (directory world0)
       [LogDebug "Creating service principal for application" [("id", "app-1")];
        Transport background (PostServicePrincipal (spBody "app-1" ["tag"]));
        Classify cleanData])
  /\ CreateApplication GetGraphError_spec failingClient background "foo" world0 =
    (Returned (None, Some (graphErrorValue badRequest)),
     mkWorld (directory world0)
       [LogDebug "Creating application" [("displayName", "foo")];
        Transport background (PostApplication (appBody "foo"));
        Classify errorData])
  /\ GetServicePrincipal GetGraphError_spec emptyClient background "foo" world0 =
    (Returned (None, Some (spNotFound "foo")),
     mkWorld (directory world0)
       [LogDebug "Getting service principal" [("displayName", "foo")];
        Transport background (GetServicePrincipals "displayName eq 'foo'");
        Classify cleanData])
  /\ GetApplication GetGraphError_spec twoFooClient background "foo" world0 =
    (Returned (Some fooApp1, None),
     mkWorld (directory world0)
       [LogDebug "Getting application" [("displayName", "foo")];
        Transport background (GetApplications "displayName eq 'foo'");
        Classify cleanData])
  /\ AddFederatedCredential GetGraphError_spec cleanClient background "obj-1"
      (Some ficWanted) world0 =
    (Returned None,
     mkWorld (directory world0)
       [LogDebug "Adding federated credential" [("objectID", "obj-1")];
        Transport background
          (PostFederatedIdentityCredential "obj-1" (Some ficWanted));
        Classify cleanData])
  /\ GetFederatedCredential GetGraphError_spec
      (ficClient [Some ficOtherIssuer; Some ficWanted]) background "obj-1"
      "https://issuer" "sub" world0 =
    (Returned (Some ficWanted, None),
     mkWorld (directory world0)
       [ficLog "obj-1" "https://issuer" "sub";
        Transport background
          (GetFederatedIdentityCredentials "obj-1" "subject eq 'sub'");
        Classify cleanData]).
Proof.
  repeat apply conj.
  - destruct (classifier_follows_transport_where_a_response_exists
                GetGraphError_spec cleanClient background world0)
      as (H & _).
    exact (H "app-1" ["tag"] _ _ eq_refl).
  - destruct (classifier_follows_transport_where_a_response_exists
                GetGraphError_spec failingClient background world0)
      as (_ & H & _).
    exact (H "foo" _ _ eq_refl).
  - destruct (classifier_follows_transport_where_a_response_exists
                GetGraphError_spec emptyClient background world0)
      as (_ & _ & H & _).
    exact (H "foo" _ _ eq_refl).
  - destruct (classifier_follows_transport_where_a_response_exists
                GetGraphError_spec twoFooClient background world0)
      as (_ & _ & _ & H & _).
    exact (H "foo" _ _ eq_refl).
  - destruct (classifier_follows_transport_where_a_response_exists
                GetGraphError_spec cleanClient background world0)
      as (_ & _ & _ & _ & H & _).
    exact (H "obj-1" (Some ficWanted) _ _ eq_refl).
  - destruct (classifier_follows_transport_where_a_response_exists
                GetGraphError_spec (ficClient [Some ficOtherIssuer; Some ficWanted])
                background world0)
      as (_ & _ & _ & _ & _ & H & _).
    exact (H "obj-1" "https://issuer" "sub" _ _ eq_refl).
Defined.

(** C1 as stated fails on the delete operations: the transport call of
    DeleteServicePrincipal, DeleteApplication and DeleteFederatedCredential
    succeeds here and no call of the classifier follows it. *)
Lemma delete_operations_do_not_classify :
  (DeleteServicePrincipal cleanClient background "sp-1" world0 =
     (Returned None,
      mkWorld ["obj-1"; "fic-1"]
        [LogDebug "Deleting service principal" [("objectID", "sp-1")];
         Transport background (DeleteServicePrincipalById "sp-1")])
   /\ classifiedRightAfterTransport
        (calls (snd (DeleteServicePrincipal cleanClient background "sp-1"
                       world0))) = false)
  /\ (DeleteApplication cleanClient background "obj-1" world0 =
     (Returned None,
      mkWorld ["sp-1"; "fic-1"]
        [LogDebug "Deleting application" [("objectID", "obj-1")];
         Transport background (DeleteApplicationById "obj-1")])
   /\ classifiedRightAfterTransport
        (calls (snd (DeleteApplication cleanClient background "obj-1"
                       world0))) = false)
  /\ (DeleteFederatedCredential cleanClient background "obj-1" "fic-1" world0 =
     (Returned None,
      mkWorld ["sp-1"; "obj-1"]
        [LogDebug "Deleting federated credential"
           [("objectID", "obj-1"); ("federatedCredentialID", "fic-1")];
         Transport background
           (DeleteFederatedIdentityCredentialById "obj-1" "fic-1")])
   /\ classifiedRightAfterTransport
        (calls (snd (DeleteFederatedCredential cleanClient background "obj-1"
                       "fic-1" world0))) = false).
Proof. repeat split. Qed.

Lemma service_error_is_returned_without_an_object_witness :
  fst (CreateServicePrincipal GetGraphError_spec failingClient background
         "app-1" ["tag"] world0) =
    Returned (None, Some (graphErrorValue badRequest))
  /\ fst (CreateApplication GetGraphError_spec failingClient background "foo"
           world0) = Returned (None, Some (graphErrorValue badRequest))
  /\ fst (GetServicePrincipal GetGraphError_spec failingClient background "foo"
           world0) = Returned (None, Some (graphErrorValue badRequest))
  /\ fst (GetApplication GetGraphError_spec failingClient background "foo"
           world0) = Returned (None, Some (graphErrorValue badRequest))
  /\ fst (AddFederatedCredential GetGraphError_spec failingClient background
           "obj-1" (Some ficWanted) world0) =
    Returned (Some (graphErrorValue badRequest))
  /\ fst (GetFederatedCredential GetGraphError_spec failingClient background
           "obj-1" "https://issuer" "sub" world0) =
    Returned (None, Some (graphErrorValue badRequest)).
Proof.
  destruct (service_error_is_returned_without_an_object GetGraphError_spec
              failingClient background world0)
    as (H1 & H2 & H3 & H4 & H5 & H6).
  repeat apply conj.
  - eapply H1; [reflexivity | vm_compute; reflexivity].
  - eapply H2; [reflexivity | vm_compute; reflexivity].
  - eapply H3; [reflexivity | vm_compute; reflexivity].
  - eapply H4; [reflexivity | vm_compute; reflexivity].
  - eapply H5; [reflexivity | vm_compute; reflexivity].
  - eapply H6; [reflexivity | vm_compute; reflexivity].
Defined.

Lemma empty_lookup_is_not_found_witness :
  fst (GetServicePrincipal GetGraphError_spec emptyClient background "foo"
         world0) =
    Returned (None, Some (errorsErrorf "service principal foo not found"))
  /\ fst (GetServicePrincipal GetGraphError_spec emptyFailingClient background
           "foo" world0) = Returned (None, Some (graphErrorValue badRequest))
  /\ fst (GetApplication GetGraphError_spec emptyClient background "foo"
           world0) =
    Returned (None, Some (errorsErrorf
      "application with display name 'foo' not found"))
  /\ fst (GetApplication GetGraphError_spec emptyFailingClient background
           "foo" world0) = Returned (None, Some (graphErrorValue badRequest)).
Proof.
  destruct (empty_lookup_is_not_found GetGraphError_spec emptyClient
              background world0) as (Hsp & Happ).
  destruct (empty_lookup_is_not_found GetGraphError_spec emptyFailingClient
              background world0) as (Hsp' & Happ').
  repeat apply conj.
  - destruct (Hsp "foo" _ _ eq_refl eq_refl) as (H & _).
    rewrite (H eq_refl). reflexivity.
  - destruct (Hsp' "foo" _ _ eq_refl eq_refl) as (_ & H).
    apply H. vm_compute. reflexivity.
  - destruct (Happ "foo" _ _ eq_refl eq_refl) as (H & _).
    rewrite (H eq_refl). reflexivity.
  - destruct (Happ' "foo" _ _ eq_refl eq_refl) as (_ & H).
    apply H. vm_compute. reflexivity.
Defined.

Lemma ambiguous_lookup_returns_first_witness :
  fst (GetServicePrincipal GetGraphError_spec twoFooClient background "foo"
         world0) = Returned (Some fooSP1, None)
  /\ fst (GetApplication GetGraphError_spec twoFooClient background "foo"
           world0) = Returned (Some fooApp1, None).
Proof.
  destruct (ambiguous_lookup_returns_first GetGraphError_spec twoFooClient
              background world0) as (Hsp & Happ).
  split.
  - eapply Hsp; reflexivity.
  - eapply Happ; reflexivity.
Defined.

(** Every call made with the cancelled context is aborted by the transport
    with the error of the context. *)
Lemma transport_error_is_propagated_unchanged_witness :
  fst (CreateServicePrincipal GetGraphError_spec cleanClient canceled "app-1"
         ["tag"] world0) = Returned (None, Some contextCanceled)
  /\ fst (CreateApplication GetGraphError_spec cleanClient canceled "foo"
           world0) = Returned (None, Some contextCanceled)
  /\ fst (GetServicePrincipal GetGraphError_spec emptyClient canceled "foo"
           world0) = Returned (None, Some contextCanceled)
  /\ fst (GetApplication GetGraphError_spec emptyClient canceled "foo" world0)
    = Returned (None, Some contextCanceled)
  /\ fst (DeleteServicePrincipal cleanClient canceled "sp-1" world0) =
    Returned (Some contextCanceled)
  /\ fst (DeleteApplication cleanClient canceled "obj-1" world0) =
    Returned (Some contextCanceled)
  /\ fst (AddFederatedCredential GetGraphError_spec cleanClient canceled
           "obj-1" (Some ficWanted) world0) = Returned (Some contextCanceled)
  /\ fst (GetFederatedCredential GetGraphError_spec emptyClient canceled
           "obj-1" "https://issuer" "sub" world0) =
    Returned (None, Some contextCanceled)
  /\ fst (DeleteFederatedCredential cleanClient canceled "obj-1" "fic-1"
           world0) = Returned (Some contextCanceled).
Proof.
  destruct (transport_error_is_propagated_unchanged GetGraphError_spec
              cleanClient canceled world0)
    as (H1 & H2 & _ & _ & H5 & H6 & H7 & _ & H9).
  destruct (transport_error_is_propagated_unchanged GetGraphError_spec
              emptyClient canceled world0)
    as (_ & _ & H3 & H4 & _ & _ & _ & H8 & _).
  repeat apply conj.
  - rewrite (H1 "app-1" ["tag"] _ _ _ eq_refl). reflexivity.
  - rewrite (H2 "foo" _ _ _ eq_refl). reflexivity.
  - rewrite (H3 "foo" _ _ _ eq_refl). reflexivity.
  - rewrite (H4 "foo" _ _ _ eq_refl). reflexivity.
  - rewrite (H5 "sp-1" _ _ eq_refl). reflexivity.
  - rewrite (H6 "obj-1" _ _ eq_refl). reflexivity.
  - rewrite (H7 "obj-1" (Some ficWanted) _ _ _ eq_refl). reflexivity.
  - rewrite (H8 "obj-1" "https://issuer" "sub" _ _ _ eq_refl). reflexivity.
  - rewrite (H9 "obj-1" "fic-1" _ _ eq_refl). reflexivity.
Defined.

(** Deleting the same service principal twice: the second call reports that
    the object does not exist, and the operation returns that error. *)
Example second_delete_reports_not_found :
  fst (DeleteServicePrincipal cleanClient background "sp-1" world0) =
    Returned None
  /\ fst (bind (DeleteServicePrincipal cleanClient background "sp-1")
            (fun _ => DeleteServicePrincipal cleanClient background "sp-1")
            world0) = Returned (Some resourceNotFound).
Proof. split; reflexivity. Qed.

Lemma AddFederatedCredential_discards_the_created_object_witness :
  fst (AddFederatedCredential GetGraphError_spec
         (fakeClient (repliesCreated ficWanted)) background "obj-1"
         (Some ficWanted) world0) = Returned None
  /\ fst (AddFederatedCredential GetGraphError_spec
           (fakeClient (repliesCreated ficOtherSubject)) background "obj-1"
           (Some ficWanted) world0) =
    fst (AddFederatedCredential GetGraphError_spec
           (fakeClient (repliesCreated ficWanted)) background "obj-1"
           (Some ficWanted) world0).
Proof.
  destruct (AddFederatedCredential_discards_the_created_object
              GetGraphError_spec (fakeClient (repliesCreated ficWanted))
              background world0 "obj-1" (Some ficWanted) ficWanted
              (directory world0) eq_refl eq_refl) as (H & Hother).
  split; [exact H|].
  exact (Hother (fakeClient (repliesCreated ficOtherSubject)) ficOtherSubject
           (directory world0) eq_refl eq_refl).
Defined.

Lemma GetFederatedCredential_compares_the_issuer_only_witness :
  (GetIssuer ficWanted = Some "https://issuer"
   /\ matchesBoth "https://issuer" "sub" (Some ficWanted))
  /\ fst (GetFederatedCredential GetGraphError_spec
           (ficClient [Some ficOtherIssuer; Some ficWanted]) background "obj-1"
           "https://absent" "sub" world0) =
    Returned (None, Some ErrFederatedCredentialNotFound).
Proof.
  split.
  - destruct (GetFederatedCredential_compares_the_issuer_only
                GetGraphError_spec (ficClient [Some ficOtherIssuer; Some ficWanted])
                background world0 "obj-1" "https://issuer" "sub" _ _
                eq_refl eq_refl) as (Hfound & _).
    destruct (Hfound ficWanted None eq_refl) as (_ & Hissuer & _ & Hboth).
    split; [exact Hissuer|]. apply Hboth.
    repeat constructor.
  - destruct (GetFederatedCredential_compares_the_issuer_only
                GetGraphError_spec (ficClient [Some ficOtherIssuer; Some ficWanted])
                background world0 "obj-1" "https://absent" "sub" _ _
                eq_refl eq_refl) as (_ & _ & Hnone).
    apply Hnone.
    + repeat constructor; discriminate.
    + intros Hex. apply Exists_cons in Hex as [[_ Hex]|Hex]; [discriminate|].
      apply Exists_cons in Hex as [[_ Hex]|Hex]; [discriminate|].
      inversion Hex.
Defined.

(** C4 as stated fails: the only element of the response has the issuer
    asked for and another subject, so no element carries both fields asked
    for; it is returned all the same, not ErrFederatedCredentialNotFound.
    And on a response whose only element has no issuer the operation does
    not return that error either: it panics. *)
Lemma GetFederatedCredential_returns_another_subject :
  (fst (GetFederatedCredential GetGraphError_spec (ficClient [Some ficOtherSubject])
          background "obj-1" "https://issuer" "sub" world0) =
     Returned (Some ficOtherSubject, None)
   /\ GetSubject ficOtherSubject <> Some "sub"
   /\ ~ Exists (matchesBoth "https://issuer" "sub") [Some ficOtherSubject])
  /\ (fst (GetFederatedCredential GetGraphError_spec (ficClient [Some ficNoIssuer])
             background "obj-1" "https://issuer" "sub" world0) =
        Panicked nilDereference
      /\ ~ Exists (matchesBoth "https://issuer" "sub") [Some ficNoIssuer]).
Proof.
  repeat apply conj; try reflexivity; try discriminate.
  - intros H. apply Exists_cons in H as [[H _]|H]; [discriminate|].
    inversion H.
  - intros H. apply Exists_cons in H as [[_ H]|H]; [discriminate|].
    inversion H.
Qed.

Lemma GetFederatedCredential_nil_issuer_before_a_match_panics_witness :
  (exists result,
      fst (GetFederatedCredential GetGraphError_spec
             (ficClient [Some ficOtherIssuer; Some ficWanted]) background
             "obj-1" "https://issuer" "sub" world0) = Returned result)
  /\ fst (GetFederatedCredential GetGraphError_spec
           (ficClient [Some ficOtherIssuer; Some ficNoIssuer; Some ficWanted])
           background "obj-1" "https://issuer" "sub" world0) =
     Panicked nilDereference
  /\ fst (GetFederatedCredential GetGraphError_spec
           (ficClient [Some ficOtherIssuer; None; Some ficWanted])
           background "obj-1" "https://issuer" "sub" world0) =
     Panicked nilDereference.
Proof.
  repeat apply conj.
  - destruct (GetFederatedCredential_nil_issuer_before_a_match_panics
                GetGraphError_spec
                (ficClient [Some ficOtherIssuer; Some ficWanted])
                background world0 "obj-1" "https://issuer" "sub" _ _
                eq_refl eq_refl) as (Hreturns & _).
    apply Hreturns. repeat constructor; discriminate.
  - destruct (GetFederatedCredential_nil_issuer_before_a_match_panics
                GetGraphError_spec
                (ficClient [Some ficOtherIssuer; Some ficNoIssuer;
                            Some ficWanted])
                background world0 "obj-1" "https://issuer" "sub" _ _
                eq_refl eq_refl) as (_ & Hpanics).
    apply Hpanics. split; [reflexivity|].
    exists [Some ficOtherIssuer], (Some ficNoIssuer), [Some ficWanted].
    repeat split.
    repeat constructor. eexists; (split; [reflexivity|discriminate]).
  - destruct (GetFederatedCredential_nil_issuer_before_a_match_panics
                GetGraphError_spec
                (ficClient [Some ficOtherIssuer; None; Some ficWanted])
                background world0 "obj-1" "https://issuer" "sub" _ _
                eq_refl eq_refl) as (_ & Hpanics).
    apply Hpanics. split; [reflexivity|].
    exists [Some ficOtherIssuer], None, [Some ficWanted].
    repeat split.
    repeat constructor. eexists; (split; [reflexivity|discriminate]).
Defined.

(** C9 as stated fails: the response holds an element without issuer, after
    the element whose issuer is the one asked for; its issuer is never
    dereferenced and the operation returns the match. *)
Lemma nil_issuer_after_the_match_is_not_dereferenced :
  Exists (fun fic => issuerOf fic = None) [Some ficWanted; Some ficNoIssuer]
  /\ fst (GetFederatedCredential GetGraphError_spec
           (ficClient [Some ficWanted; Some ficNoIssuer]) background "obj-1"
           "https://issuer" "sub" world0) = Returned (Some ficWanted, None).
Proof.
  split; [|reflexivity].
  apply Exists_cons_tl, Exists_cons_hd. reflexivity.
Qed.



(** ** Further properties: every reply of the transport *)

Section Replies.

Context {D : Type}.
Variable GetGraphError : AdditionalData -> option GraphError * option error.
Variable c : AzureClient D.
Variable ctx : Context.
Variable w : World D.

Local Abbreviation gc := (graphServiceClient c).

Lemma CreateServicePrincipal_silent appID tags d' :
  ServicePrincipals_Post gc ctx (spBody appID tags) (directory w)
    = ((None, None), d') ->
  CreateServicePrincipal GetGraphError c ctx appID tags w =
    (Panicked nilDereference,
     mkWorld d' (calls w ++
       [LogDebug "Creating service principal for application" [("id", appID)];
        Transport ctx (PostServicePrincipal (spBody appID tags))])).
Proof.
  intros H. unfold CreateServicePrincipal, spBody in *. run_with H.
  reflexivity.
Qed.

Lemma CreateApplication_silent displayName d' :
  Applications_Post gc ctx (appBody displayName) (directory w)
    = ((None, None), d') ->
  CreateApplication GetGraphError c ctx displayName w =
    (Panicked nilDereference,
     mkWorld d' (calls w ++
       [LogDebug "Creating application" [("displayName", displayName)];
        Transport ctx (PostApplication (appBody displayName))])).
Proof.
  intros H. unfold CreateApplication, appBody in *. run_with H. reflexivity.
Qed.

Lemma GetServicePrincipal_silent displayName d' :
  ServicePrincipals_Get gc ctx (getDisplayNameFilter displayName)
    (directory w) = ((None, None), d') ->
  GetServicePrincipal GetGraphError c ctx displayName w =
    (Panicked nilDereference,
     mkWorld d' (calls w ++
       [LogDebug "Getting service principal" [("displayName", displayName)];
        Transport ctx
          (GetServicePrincipals (getDisplayNameFilter displayName))])).
Proof.
  intros H. unfold GetServicePrincipal. run_with H. reflexivity.
Qed.

Lemma GetApplication_silent displayName d' :
  Applications_Get gc ctx (getDisplayNameFilter displayName) (directory w)
    = ((None, None), d') ->
  GetApplication GetGraphError c ctx displayName w =
    (Panicked nilDereference,
     mkWorld d' (calls w ++
       [LogDebug "Getting application" [("displayName", displayName)];
        Transport ctx (GetApplications (getDisplayNameFilter displayName))])).
Proof.
  intros H. unfold GetApplication. run_with H. reflexivity.
Qed.

Lemma AddFederatedCredential_silent objectID fic d' :
  FederatedIdentityCredentials_Post gc objectID ctx fic (directory w)
    = ((None, None), d') ->
  AddFederatedCredential GetGraphError c ctx objectID fic w =
    (Panicked nilDereference,
     mkWorld d' (calls w ++
       [LogDebug "Adding federated credential" [("objectID", objectID)];
        Transport ctx (PostFederatedIdentityCredential objectID fic)])).
Proof.
  intros H. unfold AddFederatedCredential. run_with H. reflexivity.
Qed.

Lemma GetFederatedCredential_silent objectID issuer subject d' :
  FederatedIdentityCredentials_Get gc objectID ctx (getSubjectFilter subject)
    (directory w) = ((None, None), d') ->
  GetFederatedCredential GetGraphError c ctx objectID issuer subject w =
    (Panicked nilDereference,
     mkWorld d' (calls w ++
       [ficLog objectID issuer subject;
        Transport ctx (GetFederatedIdentityCredentials objectID
                         (getSubjectFilter subject))])).
Proof.
  intros H. unfold GetFederatedCredential. run_with H. reflexivity.
Qed.

Lemma transportRequests_app (evs evs' : list Event) :
  transportRequests (evs ++ evs') =
    transportRequests evs ++ transportRequests evs'.
Proof.
  induction evs as [|[msg kv|ctx0 req|ad] evs IH]; cbn; [reflexivity|..];
    rewrite IH; reflexivity.
Qed.

Lemma classifiedEnvelopes_app (evs evs' : list Event) :
  classifiedEnvelopes (evs ++ evs') =
    classifiedEnvelopes evs ++ classifiedEnvelopes evs'.
Proof.
  induction evs as [|[msg kv|ctx0 req|ad] evs IH]; cbn; [reflexivity|..];
    rewrite IH; reflexivity.
Qed.

(** A verdict of the classifier never makes an operation panic. *)
Lemma afterVerdict_panics {T : Type} verdict
  (clean : Outcome (option T * option error)) why :
  afterVerdict verdict clean = Panicked why ->
  verdict = (None, None) /\ clean = Panicked why.
Proof.
  destruct verdict as [[ge|] [e|]]; cbn; try discriminate.
  intros ->. split; reflexivity.
Qed.

Lemma afterVerdict_xor {T : Type} verdict
  (clean : Outcome (option T * option error)) result :
  (forall r, clean = Returned r -> objectXorError r) ->
  afterVerdict verdict clean = Returned result -> objectXorError result.
Proof.
  intros Hclean. destruct verdict as [[ge|] [e|]]; cbn;
    try (intros [= <-]; exact I).
  apply Hclean.
Qed.

Lemma firstOr_returns {T : Type} (value : list (option T)) notFound :
  exists r, firstOr value notFound = Returned r.
Proof. destruct value as [|x rest]; cbn; eexists; reflexivity. Qed.

(** A lookup by name returns an error or an object, never both; it returns
    neither when the first element of the result set is nil. *)
Lemma firstOr_pair {T : Type} (value : list (option T)) notFound obj err :
  firstOr value notFound = Returned (obj, err) ->
  (obj = None \/ err = None)
  /\ (obj = None /\ err = None <-> exists rest, value = None :: rest).
Proof.
  destruct value as [|x rest]; cbn; intros [= <- <-].
  - split; [left; reflexivity|]. split; [intros [_ [=]]|intros (? & [=])].
  - split; [right; reflexivity|]. split.
    + intros [-> _]. exists rest. reflexivity.
    + intros (? & [= -> _]). split; reflexivity.
Qed.

(** The same after the verdict of the classifier, for a response [resp]. *)
Lemma lookup_pair {T : Type} (resp : CollectionResponse T) notFound obj err :
  afterVerdict (GetGraphError (GetAdditionalData resp))
    (firstOr (GetValue resp) notFound) = Returned (obj, err) ->
  (obj = None \/ err = None)
  /\ (obj = None /\ err = None <->
      exists resp' rest,
        (Some resp, @None error) = (Some resp', None)
        /\ GetGraphError (GetAdditionalData resp') = (None, None)
        /\ GetValue resp' = None :: rest).
Proof.
  destruct (GetGraphError (GetAdditionalData resp)) as [[ge|] [e|]] eqn:HG;
    cbn [afterVerdict].
  1-3: intros [= <- <-]; (split; [left; reflexivity|]);
    (split; [intros [_ [=]]|intros (? & ? & [= <-] & HG' & _); congruence]).
  intros H. apply firstOr_pair in H as [Hnever Hnil].
  split; [exact Hnever|]. rewrite Hnil. split.
  - intros (rest & Hrest). exists resp, rest. repeat split; assumption.
  - intros (? & rest & [= <-] & _ & Hrest). exists rest. exact Hrest.
Qed.

(** What the scan returns is a credential with a nil error, or the sentinel
    with no credential. *)
Lemma scanIssuer_xor issuer (value : list (option FederatedIdentityCredential))
  result :
  fst (scanIssuer issuer value w) = Returned result -> objectXorError result.
Proof.
  induction value as [|x rest IH]; [cbn; intros [= <-]; exact I|].
  rewrite scanIssuer_step. destruct (issuerOf x) as [i|] eqn:Hi;
    [|cbn; discriminate].
  destruct (String.eqb i issuer); [|exact IH].
  cbn. intros [= <-]. destruct x; [exact I|discriminate].
Qed.

(** The first credential with the issuer asked for ends the scan. *)
Lemma scanIssuer_first_match issuer before fic after (w0 : World D) :
  Forall (issuerDiffers issuer) before ->
  issuerOf fic = Some issuer ->
  scanIssuer issuer (before ++ fic :: after) w0 = (Returned (fic, None), w0).
Proof.
  intros Hbefore Hfic.
  induction Hbefore as [|x before Hx _ IH]; cbn [List.app app].
  - rewrite scanIssuer_step, Hfic, String.eqb_refl. reflexivity.
  - rewrite scanIssuer_skips by assumption. exact IH.
Qed.

(** X1: when the classifier reports an error of its own on the response,
    each of the six classifying operations returns that error unchanged and
    no object, whether or not the classifier also returned a graph error:
    the error of the classifier is looked at first. *)
Theorem classifier_error_is_returned_first :
  (forall appID tags sp d' graphErr e,
      ServicePrincipals_Post gc ctx (spBody appID tags) (directory w)
        = ((Some sp, None), d') ->
      GetGraphError (GetAdditionalData sp) = (graphErr, Some e) ->
      fst (CreateServicePrincipal GetGraphError c ctx appID tags w) =
        Returned (None, Some e))
  /\ (forall displayName app d' graphErr e,
      Applications_Post gc ctx (appBody displayName) (directory w)
        = ((Some app, None), d') ->
      GetGraphError (GetAdditionalData app) = (graphErr, Some e) ->
      fst (CreateApplication GetGraphError c ctx displayName w) =
        Returned (None, Some e))
  /\ (forall displayName resp d' graphErr e,
      ServicePrincipals_Get gc ctx (getDisplayNameFilter displayName)
        (directory w) = ((Some resp, None), d') ->
      GetGraphError (GetAdditionalData resp) = (graphErr, Some e) ->
      fst (GetServicePrincipal GetGraphError c ctx displayName w) =
        Returned (None, Some e))
  /\ (forall displayName resp d' graphErr e,
      Applications_Get gc ctx (getDisplayNameFilter displayName)
        (directory w) = ((Some resp, None), d') ->
      GetGraphError (GetAdditionalData resp) = (graphErr, Some e) ->
      fst (GetApplication GetGraphError c ctx displayName w) =
        Returned (None, Some e))
  /\ (forall objectID fic created d' graphErr e,
      FederatedIdentityCredentials_Post gc objectID ctx fic (directory w)
        = ((Some created, None), d') ->
      GetGraphError (GetAdditionalData created) = (graphErr, Some e) ->
      fst (AddFederatedCredential GetGraphError c ctx objectID fic w) =
        Returned (Some e))
  /\ (forall objectID issuer subject resp d' graphErr e,
      FederatedIdentityCredentials_Get gc objectID ctx
        (getSubjectFilter subject) (directory w) = ((Some resp, None), d') ->
      GetGraphError (GetAdditionalData resp) = (graphErr, Some e) ->
      fst (GetFederatedCredential GetGraphError c ctx objectID issuer subject w)
        = Returned (None, Some e)).
Proof.
  repeat apply conj; intros * H HG.
  - answered @CreateServicePrincipal_answered H. rewrite HG.
    destruct graphErr; reflexivity.
  - answered @CreateApplication_answered H. rewrite HG.
    destruct graphErr; reflexivity.
  - answered @GetServicePrincipal_answered H. rewrite HG.
    destruct graphErr; reflexivity.
  - answered @GetApplication_answered H. rewrite HG.
    destruct graphErr; reflexivity.
  - answered @AddFederatedCredential_answered H. rewrite HG.
    destruct graphErr; reflexivity.
  - answered @GetFederatedCredential_answered H. rewrite HG.
    destruct graphErr; reflexivity.
Qed.

(** X2: when the transport answers with a nil response and a nil error, each
    of the six operations that read the response panics on a nil
    dereference, right after the transport call and before any call of the
    classifier. *)
Theorem nil_response_without_error_panics :
  (forall appID tags d',
      ServicePrincipals_Post gc ctx (spBody appID tags) (directory w)
        = ((None, None), d') ->
      CreateServicePrincipal GetGraphError c ctx appID tags w =
        (Panicked nilDereference,
         mkWorld d' (calls w ++
           [LogDebug "Creating service principal for application"
              [("id", appID)];
            Transport ctx (PostServicePrincipal (spBody appID tags))])))
  /\ (forall displayName d',
      Applications_Post gc ctx (appBody displayName) (directory w)
        = ((None, None), d') ->
      CreateApplication GetGraphError c ctx displayName w =
        (Panicked nilDereference,
         mkWorld d' (calls w ++
           [LogDebug "Creating application" [("displayName", displayName)];
            Transport ctx (PostApplication (appBody displayName))])))
  /\ (forall displayName d',
      ServicePrincipals_Get gc ctx (getDisplayNameFilter displayName)
        (directory w) = ((None, None), d') ->
      GetServicePrincipal GetGraphError c ctx displayName w =
        (Panicked nilDereference,
         mkWorld d' (calls w ++
           [LogDebug "Getting service principal"
              [("displayName", displayName)];
            Transport ctx
              (GetServicePrincipals (getDisplayNameFilter displayName))])))
  /\ (forall displayName d',
      Applications_Get gc ctx (getDisplayNameFilter displayName)
        (directory w) = ((None, None), d') ->
      GetApplication GetGraphError c ctx displayName w =
        (Panicked nilDereference,
         mkWorld d' (calls w ++
           [LogDebug "Getting application" [("displayName", displayName)];
            Transport ctx
              (GetApplications (getDisplayNameFilter displayName))])))
  /\ (forall objectID fic d',
      FederatedIdentityCredentials_Post gc objectID ctx fic (directory w)
        = ((None, None), d') ->
      AddFederatedCredential GetGraphError c ctx objectID fic w =
        (Panicked nilDereference,
         mkWorld d' (calls w ++
           [LogDebug "Adding federated credential" [("objectID", objectID)];
            Transport ctx (PostFederatedIdentityCredential objectID fic)])))
  /\ (forall objectID issuer subject d',
      FederatedIdentityCredentials_Get gc objectID ctx
        (getSubjectFilter subject) (directory w) = ((None, None), d') ->
      GetFederatedCredential GetGraphError c ctx objectID issuer subject w =
        (Panicked nilDereference,
         mkWorld d' (calls w ++
           [ficLog objectID issuer subject;
            Transport ctx (GetFederatedIdentityCredentials objectID
                             (getSubjectFilter subject))]))).
Proof.
  repeat apply conj; intros * H.
  - apply CreateServicePrincipal_silent, H.
  - apply CreateApplication_silent, H.
  - apply GetServicePrincipal_silent, H.
  - apply GetApplication_silent, H.
  - apply AddFederatedCredential_silent, H.
  - apply GetFederatedCredential_silent, H.
Qed.

(** Case analysis on what the endpoint [E] answers: an error, a response,
    or neither; [Lf], [La] and [Ls] are the run lemmas of the three cases. *)
Ltac reply_cases E Lf La Ls :=
  let r := fresh "r" in
  let e := fresh "e" in
  let d' := fresh "d'" in
  let Hreply := fresh "Hreply" in
  destruct E as [[[r|] [e|]] d'] eqn:Hreply;
  [ erewrite Lf by exact Hreply
  | erewrite La by exact Hreply
  | erewrite Lf by exact Hreply
  | erewrite Ls by exact Hreply ];
  cbn [fst snd calls directory].

Ltac count_log :=
  rewrite transportRequests_app, classifiedEnvelopes_app; cbn;
  rewrite ?List.app_nil_r; repeat split.

(** X3: CreateServicePrincipal, CreateApplication, GetServicePrincipal,
    GetApplication and AddFederatedCredential panic in one case only, a nil
    response together with a nil error from the transport; in particular
    the lookups never index an empty result set. *)
Theorem only_a_nil_response_panics :
  (forall appID tags why,
      fst (CreateServicePrincipal GetGraphError c ctx appID tags w)
        = Panicked why <->
      why = nilDereference
      /\ fst (ServicePrincipals_Post gc ctx (spBody appID tags) (directory w))
         = (None, None))
  /\ (forall displayName why,
      fst (CreateApplication GetGraphError c ctx displayName w)
        = Panicked why <->
      why = nilDereference
      /\ fst (Applications_Post gc ctx (appBody displayName) (directory w))
         = (None, None))
  /\ (forall displayName why,
      fst (GetServicePrincipal GetGraphError c ctx displayName w)
        = Panicked why <->
      why = nilDereference
      /\ fst (ServicePrincipals_Get gc ctx (getDisplayNameFilter displayName)
                (directory w)) = (None, None))
  /\ (forall displayName why,
      fst (GetApplication GetGraphError c ctx displayName w)
        = Panicked why <->
      why = nilDereference
      /\ fst (Applications_Get gc ctx (getDisplayNameFilter displayName)
                (directory w)) = (None, None))
  /\ (forall objectID fic why,
      fst (AddFederatedCredential GetGraphError c ctx objectID fic w)
        = Panicked why <->
      why = nilDereference
      /\ fst (FederatedIdentityCredentials_Post gc objectID ctx fic
                (directory w)) = (None, None)).
Proof.
  repeat apply conj; intros.
  - reply_cases (ServicePrincipals_Post gc ctx (spBody appID tags) (directory w))
      @CreateServicePrincipal_failed @CreateServicePrincipal_answered
      CreateServicePrincipal_silent;
      (split; [intros Hp|intros [-> [=]]]); try discriminate;
      try (apply afterVerdict_panics in Hp as [_ [=]]).
    + injection Hp as <-. split; reflexivity.
    + reflexivity.
  - reply_cases (Applications_Post gc ctx (appBody displayName) (directory w))
      @CreateApplication_failed @CreateApplication_answered
      CreateApplication_silent;
      (split; [intros Hp|intros [-> [=]]]); try discriminate;
      try (apply afterVerdict_panics in Hp as [_ [=]]).
    + injection Hp as <-. split; reflexivity.
    + reflexivity.
  - reply_cases (ServicePrincipals_Get gc ctx (getDisplayNameFilter displayName)
                   (directory w))
      @GetServicePrincipal_failed @GetServicePrincipal_answered
      GetServicePrincipal_silent;
      (split; [intros Hp|intros [-> [=]]]); try discriminate.
    + apply afterVerdict_panics in Hp as [_ Hp].
      destruct (firstOr_returns (GetValue r) (spNotFound displayName))
        as (x & Hx). congruence.
    + injection Hp as <-. split; reflexivity.
    + reflexivity.
  - reply_cases (Applications_Get gc ctx (getDisplayNameFilter displayName)
                   (directory w))
      @GetApplication_failed @GetApplication_answered GetApplication_silent;
      (split; [intros Hp|intros [-> [=]]]); try discriminate.
    + apply afterVerdict_panics in Hp as [_ Hp].
      destruct (firstOr_returns (GetValue r) (appNotFound displayName))
        as (x & Hx). congruence.
    + injection Hp as <-. split; reflexivity.
    + reflexivity.
  - reply_cases (FederatedIdentityCredentials_Post gc objectID ctx fic
                   (directory w))
      @AddFederatedCredential_failed @AddFederatedCredential_answered
      AddFederatedCredential_silent;
      (split; [intros Hp|intros [-> [=]]]); try discriminate.
    + injection Hp as <-. split; reflexivity.
    + reflexivity.
Qed.

(** X4: GetFederatedCredential panics, always on a nil dereference, in two
    cases only: the transport answers with a nil response and a nil error,
    or the response is clean and a nil element, or an element without
    issuer, comes before any element with the issuer asked for. *)
Theorem GetFederatedCredential_panics_in_two_cases :
  forall objectID issuer subject why,
    fst (GetFederatedCredential GetGraphError c ctx objectID issuer subject w)
      = Panicked why <->
    why = nilDereference
    /\ (fst (FederatedIdentityCredentials_Get gc objectID ctx
               (getSubjectFilter subject) (directory w)) = (None, None)
        \/ exists resp,
            fst (FederatedIdentityCredentials_Get gc objectID ctx
                   (getSubjectFilter subject) (directory w))
              = (Some resp, None)
            /\ GetGraphError (GetAdditionalData resp) = (None, None)
            /\ exists before fic after,
                GetValue resp = before ++ fic :: after
                /\ issuerOf fic = None
                /\ Forall (issuerDiffers issuer) before).
Proof.
  intros.
  reply_cases (FederatedIdentityCredentials_Get gc objectID ctx
                 (getSubjectFilter subject) (directory w))
    @GetFederatedCredential_failed @GetFederatedCredential_answered
    GetFederatedCredential_silent.
  - split; [discriminate|].
    intros (_ & [[=]|(resp & [=] & _)]).
  - split.
    + intros Hp. apply afterVerdict_panics in Hp as [HG Hp].
      apply scanIssuer_panics in Hp as (-> & Hsplit).
      split; [reflexivity|]. right. exists r. repeat split; assumption.
    + intros (-> & [[=]|(resp & [= <-] & HG & Hsplit)]).
      rewrite HG. cbn [afterVerdict].
      apply scanIssuer_panics. split; [reflexivity|exact Hsplit].
  - split; [discriminate|].
    intros (_ & [[=]|(resp & [=] & _)]).
  - split.
    + intros [= <-]. split; [reflexivity|]. left. reflexivity.
    + intros (-> & _). reflexivity.
Qed.

(** X5: whatever the transport and the classifier answer, CreateServicePrincipal,
    CreateApplication and GetFederatedCredential never return both an object
    and an error, nor neither: a nil error always comes with an object, a
    non-nil error with none.  GetServicePrincipal and GetApplication never
    return both either, and they return neither, a nil object with a nil
    error, exactly when the response is clean and the first element of its
    result set is nil. *)
Theorem object_and_error_are_exclusive :
  (forall appID tags result,
      fst (CreateServicePrincipal GetGraphError c ctx appID tags w)
        = Returned result -> objectXorError result)
  /\ (forall displayName result,
      fst (CreateApplication GetGraphError c ctx displayName w)
        = Returned result -> objectXorError result)
  /\ (forall objectID issuer subject result,
      fst (GetFederatedCredential GetGraphError c ctx objectID issuer subject w)
        = Returned result -> objectXorError result)
  /\ (forall displayName obj err,
      fst (GetServicePrincipal GetGraphError c ctx displayName w)
        = Returned (obj, err) ->
      (obj = None \/ err = None)
      /\ (obj = None /\ err = None <->
          exists resp rest,
            fst (ServicePrincipals_Get gc ctx (getDisplayNameFilter displayName)
                   (directory w)) = (Some resp, None)
            /\ GetGraphError (GetAdditionalData resp) = (None, None)
            /\ GetValue resp = None :: rest))
  /\ (forall displayName obj err,
      fst (GetApplication GetGraphError c ctx displayName w)
        = Returned (obj, err) ->
      (obj = None \/ err = None)
      /\ (obj = None /\ err = None <->
          exists resp rest,
            fst (Applications_Get gc ctx (getDisplayNameFilter displayName)
                   (directory w)) = (Some resp, None)
            /\ GetGraphError (GetAdditionalData resp) = (None, None)
            /\ GetValue resp = None :: rest)).
Proof.
  repeat apply conj; intros *.
  - reply_cases (ServicePrincipals_Post gc ctx (spBody appID tags) (directory w))
      @CreateServicePrincipal_failed @CreateServicePrincipal_answered
      CreateServicePrincipal_silent;
      try (intros [= <-]; exact I); try discriminate.
    apply afterVerdict_xor. intros ? [= <-]. exact I.
  - reply_cases (Applications_Post gc ctx (appBody displayName) (directory w))
      @CreateApplication_failed @CreateApplication_answered
      CreateApplication_silent;
      try (intros [= <-]; exact I); try discriminate.
    apply afterVerdict_xor. intros ? [= <-]. exact I.
  - reply_cases (FederatedIdentityCredentials_Get gc objectID ctx
                   (getSubjectFilter subject) (directory w))
      @GetFederatedCredential_failed @GetFederatedCredential_answered
      GetFederatedCredential_silent;
      try (intros [= <-]; exact I); try discriminate.
    apply afterVerdict_xor. intros x. apply scanIssuer_xor.
  - reply_cases (ServicePrincipals_Get gc ctx (getDisplayNameFilter displayName)
                   (directory w))
      @GetServicePrincipal_failed @GetServicePrincipal_answered
      GetServicePrincipal_silent; try discriminate.
    + intros [= <- <-]. split; [left; reflexivity|].
      split; [intros [_ [=]]|intros (? & ? & [=] & _)].
    + apply lookup_pair.
    + intros [= <- <-]. split; [left; reflexivity|].
      split; [intros [_ [=]]|intros (? & ? & [=] & _)].
  - reply_cases (Applications_Get gc ctx (getDisplayNameFilter displayName)
                   (directory w))
      @GetApplication_failed @GetApplication_answered GetApplication_silent;
      try discriminate.
    + intros [= <- <-]. split; [left; reflexivity|].
      split; [intros [_ [=]]|intros (? & ? & [=] & _)].
    + apply lookup_pair.
    + intros [= <- <-]. split; [left; reflexivity|].
      split; [intros [_ [=]]|intros (? & ? & [=] & _)].
Qed.

(** X6: whatever the transport and the classifier answer, an operation hands
    exactly one request to the transport, the one of its endpoint built from
    its arguments, and leaves the directory as that one call left it; it
    calls the classifier once, on the additional data of the response, when
    the transport gave a response and no error, and not at all otherwise;
    the delete operations never call it. *)
Theorem one_request_per_operation :
  (forall appID tags,
      let op := CreateServicePrincipal GetGraphError c ctx appID tags w in
      let reply := ServicePrincipals_Post gc ctx (spBody appID tags)
                     (directory w) in
      transportRequests (calls (snd op)) =
        transportRequests (calls w) ++ [PostServicePrincipal (spBody appID tags)]
      /\ classifiedEnvelopes (calls (snd op)) =
        classifiedEnvelopes (calls w) ++ envelopeOf (fst reply)
      /\ directory (snd op) = snd reply)
  /\ (forall displayName,
      let op := CreateApplication GetGraphError c ctx displayName w in
      let reply := Applications_Post gc ctx (appBody displayName)
                     (directory w) in
      transportRequests (calls (snd op)) =
        transportRequests (calls w) ++ [PostApplication (appBody displayName)]
      /\ classifiedEnvelopes (calls (snd op)) =
        classifiedEnvelopes (calls w) ++ envelopeOf (fst reply)
      /\ directory (snd op) = snd reply)
  /\ (forall displayName,
      let op := GetServicePrincipal GetGraphError c ctx displayName w in
      let reply := ServicePrincipals_Get gc ctx
                     (getDisplayNameFilter displayName) (directory w) in
      transportRequests (calls (snd op)) =
        transportRequests (calls w) ++
          [GetServicePrincipals (getDisplayNameFilter displayName)]
      /\ classifiedEnvelopes (calls (snd op)) =
        classifiedEnvelopes (calls w) ++ envelopeOf (fst reply)
      /\ directory (snd op) = snd reply)
  /\ (forall displayName,
      let op := GetApplication GetGraphError c ctx displayName w in
      let reply := Applications_Get gc ctx (getDisplayNameFilter displayName)
                     (directory w) in
      transportRequests (calls (snd op)) =
        transportRequests (calls w) ++
          [GetApplications (getDisplayNameFilter displayName)]
      /\ classifiedEnvelopes (calls (snd op)) =
        classifiedEnvelopes (calls w) ++ envelopeOf (fst reply)
      /\ directory (snd op) = snd reply)
  /\ (forall objectID,
      let op := DeleteServicePrincipal c ctx objectID w in
      transportRequests (calls (snd op)) =
        transportRequests (calls w) ++ [DeleteServicePrincipalById objectID]
      /\ classifiedEnvelopes (calls (snd op)) = classifiedEnvelopes (calls w)
      /\ directory (snd op) =
        snd (ServicePrincipalsById_Delete gc objectID ctx (directory w)))
  /\ (forall objectID,
      let op := DeleteApplication c ctx objectID w in
      transportRequests (calls (snd op)) =
        transportRequests (calls w) ++ [DeleteApplicationById objectID]
      /\ classifiedEnvelopes (calls (snd op)) = classifiedEnvelopes (calls w)
      /\ directory (snd op) =
        snd (ApplicationsById_Delete gc objectID ctx (directory w)))
  /\ (forall objectID fic,
      let op := AddFederatedCredential GetGraphError c ctx objectID fic w in
      let reply := FederatedIdentityCredentials_Post gc objectID ctx fic
                     (directory w) in
      transportRequests (calls (snd op)) =
        transportRequests (calls w) ++
          [PostFederatedIdentityCredential objectID fic]
      /\ classifiedEnvelopes (calls (snd op)) =
        classifiedEnvelopes (calls w) ++ envelopeOf (fst reply)
      /\ directory (snd op) = snd reply)
  /\ (forall objectID issuer subject,
      let op := GetFederatedCredential GetGraphError c ctx objectID issuer
                  subject w in
      let reply := FederatedIdentityCredentials_Get gc objectID ctx
                     (getSubjectFilter subject) (directory w) in
      transportRequests (calls (snd op)) =
        transportRequests (calls w) ++
          [GetFederatedIdentityCredentials objectID (getSubjectFilter subject)]
      /\ classifiedEnvelopes (calls (snd op)) =
        classifiedEnvelopes (calls w) ++ envelopeOf (fst reply)
      /\ directory (snd op) = snd reply)
  /\ (forall objectID ficID,
      let op := DeleteFederatedCredential c ctx objectID ficID w in
      transportRequests (calls (snd op)) =
        transportRequests (calls w) ++
          [DeleteFederatedIdentityCredentialById objectID ficID]
      /\ classifiedEnvelopes (calls (snd op)) = classifiedEnvelopes (calls w)
      /\ directory (snd op) =
        snd (FederatedIdentityCredentialsById_Delete gc objectID ficID ctx
               (directory w))).
Proof.
  cbv zeta. repeat apply conj; intros.
  - reply_cases (ServicePrincipals_Post gc ctx (spBody appID tags) (directory w))
      @CreateServicePrincipal_failed @CreateServicePrincipal_answered
      CreateServicePrincipal_silent; count_log.
  - reply_cases (Applications_Post gc ctx (appBody displayName) (directory w))
      @CreateApplication_failed @CreateApplication_answered
      CreateApplication_silent; count_log.
  - reply_cases (ServicePrincipals_Get gc ctx (getDisplayNameFilter displayName)
                   (directory w))
      @GetServicePrincipal_failed @GetServicePrincipal_answered
      GetServicePrincipal_silent; count_log.
  - reply_cases (Applications_Get gc ctx (getDisplayNameFilter displayName)
                   (directory w))
      @GetApplication_failed @GetApplication_answered GetApplication_silent;
      count_log.
  - rewrite DeleteServicePrincipal_run. cbn [fst snd calls directory].
    count_log.
  - rewrite DeleteApplication_run. cbn [fst snd calls directory]. count_log.
  - reply_cases (FederatedIdentityCredentials_Post gc objectID ctx fic
                   (directory w))
      @AddFederatedCredential_failed @AddFederatedCredential_answered
      AddFederatedCredential_silent; count_log.
  - reply_cases (FederatedIdentityCredentials_Get gc objectID ctx
                   (getSubjectFilter subject) (directory w))
      @GetFederatedCredential_failed @GetFederatedCredential_answered
      GetFederatedCredential_silent; count_log.
  - rewrite DeleteFederatedCredential_run. cbn [fst snd calls directory].
    count_log.
Qed.

(** X7: on a clean response, when an element has the issuer asked for and
    every element before it is a credential with an issuer, another one,
    that element is returned with a nil error, whatever follows it in the
    response: nil elements, elements without issuer, or further elements
    with the same issuer. *)
Theorem GetFederatedCredential_returns_the_first_match :
  forall objectID issuer subject resp d' before fic after,
    FederatedIdentityCredentials_Get gc objectID ctx
      (getSubjectFilter subject) (directory w) = ((Some resp, None), d') ->
    GetGraphError (GetAdditionalData resp) = (None, None) ->
    GetValue resp = before ++ Some fic :: after ->
    Forall (issuerDiffers issuer) before ->
    GetIssuer fic = Some issuer ->
    fst (GetFederatedCredential GetGraphError c ctx objectID issuer subject w)
      = Returned (Some fic, None).
Proof.
  intros * H HG Hvalue Hbefore Hfic.
  answered @GetFederatedCredential_answered H.
  rewrite HG, Hvalue, scanIssuer_first_match by assumption. reflexivity.
Qed.


End Replies.

(** ** Further properties: the filters *)

Lemma append_quote_inj (a b : string) : a +:+ "'" = b +:+ "'" -> a = b.
Proof.
  revert b. induction a as [|ch a IH]; intros [|ch' b]; rewrite ?append_cons;
    cbn.
  - reflexivity.
  - intros [= <- Hb]. destruct b; discriminate.
  - intros [= -> Ha]. destruct a; discriminate.
  - intros [= <- Hab]. f_equal. exact (IH _ Hab).
Qed.

Lemma append_prefix_inj (p a b : string) : p +:+ a = p +:+ b -> a = b.
Proof.
  induction p as [|ch p IH]; [exact id|].
  rewrite !append_cons. intros [= H]. exact (IH H).
Qed.

(** X8: the filter builders are injective, two display names, or two
    subjects, give the same filter text only when they are equal, quotes or
    not; and a filter on the display name is never the text of a filter on
    the subject. *)
Theorem filters_are_injective :
  (forall a b, getDisplayNameFilter a = getDisplayNameFilter b -> a = b)
  /\ (forall a b, getSubjectFilter a = getSubjectFilter b -> a = b)
  /\ (forall a b, getDisplayNameFilter a <> getSubjectFilter b).
Proof.
  unfold getDisplayNameFilter, getSubjectFilter. repeat apply conj.
  - intros a b H. apply append_prefix_inj in H. exact (append_quote_inj _ _ H).
  - intros a b H. apply append_prefix_inj in H. exact (append_quote_inj _ _ H).
  - intros a b. rewrite !append_cons. discriminate.
Qed.

(** ** The further properties on sample runs *)

Lemma classifier_error_is_returned_first_witness :
  fst (CreateServicePrincipal GetGraphError_spec malformedClient background
         "app-1" ["tag"] world0) = Returned (None, Some malformedError)
  /\ fst (CreateApplication GetGraphError_spec malformedClient background "foo"
           world0) = Returned (None, Some malformedError)
  /\ fst (GetServicePrincipal GetGraphError_spec malformedClient background
           "foo" world0) = Returned (None, Some malformedError)
  /\ fst (GetApplication GetGraphError_spec malformedClient background "foo"
           world0) = Returned (None, Some malformedError)
  /\ fst (AddFederatedCredential GetGraphError_spec malformedClient background
           "obj-1" (Some ficWanted) world0) = Returned (Some malformedError)
  /\ fst (GetFederatedCredential GetGraphError_spec malformedClient background
           "obj-1" "https://issuer" "sub" world0) =
    Returned (None, Some malformedError).
Proof.
  destruct (classifier_error_is_returned_first GetGraphError_spec
              malformedClient background world0)
    as (H1 & H2 & H3 & H4 & H5 & H6).
  repeat apply conj.
  - eapply H1; [reflexivity | vm_compute; reflexivity].
  - eapply H2; [reflexivity | vm_compute; reflexivity].
  - eapply H3; [reflexivity | vm_compute; reflexivity].
  - eapply H4; [reflexivity | vm_compute; reflexivity].
  - eapply H5; [reflexivity | vm_compute; reflexivity].
  - eapply H6; [reflexivity | vm_compute; reflexivity].
Defined.

Lemma nil_response_without_error_panics_witness :
  fst (CreateServicePrincipal GetGraphError_spec silentClient background
         "app-1" ["tag"] world0) = Panicked nilDereference
  /\ fst (CreateApplication GetGraphError_spec silentClient background "foo"
           world0) = Panicked nilDereference
  /\ fst (GetServicePrincipal GetGraphError_spec silentClient background "foo"
           world0) = Panicked nilDereference
  /\ fst (GetApplication GetGraphError_spec silentClient background "foo"
           world0) = Panicked nilDereference
  /\ fst (AddFederatedCredential GetGraphError_spec silentClient background
           "obj-1" (Some ficWanted) world0) = Panicked nilDereference
  /\ fst (GetFederatedCredential GetGraphError_spec silentClient background
           "obj-1" "https://issuer" "sub" world0) = Panicked nilDereference.
Proof.
  destruct (nil_response_without_error_panics GetGraphError_spec silentClient
              background world0)
    as (H1 & H2 & H3 & H4 & H5 & H6).
  repeat apply conj.
  - rewrite (H1 "app-1" ["tag"] _ eq_refl). reflexivity.
  - rewrite (H2 "foo" _ eq_refl). reflexivity.
  - rewrite (H3 "foo" _ eq_refl). reflexivity.
  - rewrite (H4 "foo" _ eq_refl). reflexivity.
  - rewrite (H5 "obj-1" (Some ficWanted) _ eq_refl). reflexivity.
  - rewrite (H6 "obj-1" "https://issuer" "sub" _ eq_refl). reflexivity.
Defined.

Lemma only_a_nil_response_panics_witness :
  fst (CreateServicePrincipal GetGraphError_spec silentClient background
         "app-1" ["tag"] world0) = Panicked nilDereference
  /\ fst (CreateApplication GetGraphError_spec silentClient background "foo"
           world0) = Panicked nilDereference
  /\ fst (GetServicePrincipal GetGraphError_spec silentClient background "foo"
           world0) = Panicked nilDereference
  /\ fst (GetApplication GetGraphError_spec silentClient background "foo"
           world0) = Panicked nilDereference
  /\ fst (AddFederatedCredential GetGraphError_spec silentClient background
           "obj-1" (Some ficWanted) world0) = Panicked nilDereference.
Proof.
  destruct (only_a_nil_response_panics GetGraphError_spec silentClient
              background world0)
    as (H1 & H2 & H3 & H4 & H5).
  repeat apply conj.
  - apply H1. split; reflexivity.
  - apply H2. split; reflexivity.
  - apply H3. split; reflexivity.
  - apply H4. split; reflexivity.
  - apply H5. split; reflexivity.
Defined.

Lemma GetFederatedCredential_panics_in_two_cases_witness :
  fst (GetFederatedCredential GetGraphError_spec silentClient background
         "obj-1" "https://issuer" "sub" world0) = Panicked nilDereference
  /\ fst (GetFederatedCredential GetGraphError_spec
           (ficClient [Some ficOtherIssuer; Some ficNoIssuer; Some ficWanted])
           background "obj-1" "https://issuer" "sub" world0) =
     Panicked nilDereference
  /\ fst (GetFederatedCredential GetGraphError_spec
           (ficClient [Some ficOtherIssuer; None; Some ficWanted])
           background "obj-1" "https://issuer" "sub" world0) =
     Panicked nilDereference.
Proof.
  repeat apply conj.
  - apply (GetFederatedCredential_panics_in_two_cases GetGraphError_spec
             silentClient background world0).
    split; [reflexivity|]. left. reflexivity.
  - apply (GetFederatedCredential_panics_in_two_cases GetGraphError_spec
             (ficClient [Some ficOtherIssuer; Some ficNoIssuer; Some ficWanted])
             background world0).
    split; [reflexivity|]. right.
    exists (mkCollectionResponse
              [Some ficOtherIssuer; Some ficNoIssuer; Some ficWanted] cleanData).
    repeat split.
    exists [Some ficOtherIssuer], (Some ficNoIssuer), [Some ficWanted].
    repeat split.
    repeat constructor. eexists; (split; [reflexivity|discriminate]).
  - apply (GetFederatedCredential_panics_in_two_cases GetGraphError_spec
             (ficClient [Some ficOtherIssuer; None; Some ficWanted])
             background world0).
    split; [reflexivity|]. right.
    exists (mkCollectionResponse
              [Some ficOtherIssuer; None; Some ficWanted] cleanData).
    repeat split.
    exists [Some ficOtherIssuer], None, [Some ficWanted].
    repeat split.
    repeat constructor. eexists; (split; [reflexivity|discriminate]).
Defined.

(** The five operations on sample runs: an object with a nil error, an error
    with no object and, for a lookup by name on a result set whose first
    element is nil, neither. *)
Lemma object_and_error_are_exclusive_witness :
  (fst (CreateServicePrincipal GetGraphError_spec cleanClient background
          "app-1" ["tag"] world0) =
     Returned (Some (sampleSP "sp-1" cleanData), None)
   /\ objectXorError (Some (sampleSP "sp-1" cleanData), @None error))
  /\ (fst (CreateApplication GetGraphError_spec failingClient background "foo"
             world0) = Returned (None, Some (graphErrorValue badRequest))
      /\ objectXorError (@None Application,
                         Some (graphErrorValue badRequest)))
  /\ (fst (GetFederatedCredential GetGraphError_spec (ficClient []) background
             "obj-1" "https://issuer" "sub" world0) =
        Returned (None, Some ErrFederatedCredentialNotFound)
      /\ objectXorError (@None FederatedIdentityCredential,
                         Some ErrFederatedCredentialNotFound))
  /\ (fst (GetServicePrincipal GetGraphError_spec nilFirstClient background
             "foo" world0) = Returned (None, None)
      /\ exists resp rest,
          fst (ServicePrincipals_Get (graphServiceClient nilFirstClient)
                 background (getDisplayNameFilter "foo") (directory world0))
            = (Some resp, None)
          /\ GetGraphError_spec (GetAdditionalData resp) = (None, None)
          /\ GetValue resp = None :: rest)
  /\ (fst (GetApplication GetGraphError_spec twoFooClient background "foo"
             world0) = Returned (Some fooApp1, None)
      /\ (Some fooApp1 = None \/ @None error = None)).
Proof.
  split; [|split; [|split; [|split]]]; (split; [reflexivity|]).
  - destruct (object_and_error_are_exclusive GetGraphError_spec
                cleanClient background world0) as (H & _).
    exact (H "app-1" ["tag"] _ eq_refl).
  - destruct (object_and_error_are_exclusive GetGraphError_spec
                failingClient background world0) as (_ & H & _).
    exact (H "foo" _ eq_refl).
  - destruct (object_and_error_are_exclusive GetGraphError_spec
                (ficClient []) background world0) as (_ & _ & H & _).
    exact (H "obj-1" "https://issuer" "sub" _ eq_refl).
  - destruct (object_and_error_are_exclusive GetGraphError_spec
                nilFirstClient background world0) as (_ & _ & _ & H & _).
    destruct (H "foo" None None eq_refl) as (_ & Hneither).
    apply Hneither. split; reflexivity.
  - destruct (object_and_error_are_exclusive GetGraphError_spec
                twoFooClient background world0) as (_ & _ & _ & _ & H).
    destruct (H "foo" (Some fooApp1) None eq_refl) as (Hnever & _).
    exact Hnever.
Defined.

Lemma GetFederatedCredential_returns_the_first_match_witness :
  fst (GetFederatedCredential GetGraphError_spec
         (ficClient [Some ficOtherIssuer; Some ficWanted; None;
                     Some ficNoIssuer; Some ficOtherSubject])
         background "obj-1" "https://issuer" "sub" world0) =
    Returned (Some ficWanted, None).
Proof.
  eapply (GetFederatedCredential_returns_the_first_match GetGraphError_spec
            (ficClient [Some ficOtherIssuer; Some ficWanted; None;
                        Some ficNoIssuer; Some ficOtherSubject])
            background world0 "obj-1" "https://issuer" "sub" _ _
            [Some ficOtherIssuer] ficWanted
            [None; Some ficNoIssuer; Some ficOtherSubject]).
  - reflexivity.
  - reflexivity.
  - reflexivity.
  - repeat constructor. eexists; (split; [reflexivity|discriminate]).
  - reflexivity.
Defined.


Lemma filters_are_injective_witness :
  "o'brien" = "o'brien" /\ "sub" = "sub".
Proof.
  destruct filters_are_injective as (Hname & Hsubject & _).
  split.
  - apply Hname. reflexivity.
  - apply Hsubject. reflexivity.
Defined.
